(** * CryptoClaude dashboard server: the status-and-command API layer

    A shallow embedding of [src/Web/dashboard_server.py]: the request
    handler class [CryptoClaudeHandler], its router
    [handle_api_request], the probe methods ([check_system_health],
    [check_aws_connection], [get_system_uptime], [get_system_load]), the
    status, log and command handlers.

    Conventions of the embedding.
    - A Python [dict] literal is an association list in insertion order,
      which is also the order [json.dumps] writes the keys in.
    - A Python [str] is a [string]; a character is a code point below 256.
    - A Python [float] is a binary64 value ([PrimFloat.float]); the
      decimal literals of the source denote the nearest binary64 value, as
      they do in Python.
    - Everything the handler asks of its host (the clock, child processes,
      files under /proc, the builtin [float()]) is answered by a [World].
      The handler's calls are recorded, newest first, in a trace; the
      length of the trace is the logical time at which the next call is
      answered, so the same question may get different answers at
      different moments.
    - An [exn] is an instance of a subclass of Python's [Exception], the
      class that both [except Exception] and a bare [except:] catch.
      Asynchronous signals ([KeyboardInterrupt]) are not modelled.
    - Every response and every error page is logged by the base class
      through the class's own [log_message], which reads the clock; these
      readings are in the trace like the handlers' own.
    - A reply is what the handler hands to its connection.  The router
      takes the connection as an argument, since the writes to it stand
      outside the router's [try]; the request methods [do_GET] and
      [do_POST] are stated on a connection that accepts what is written
      and on a request target that [urlparse] accepts (on another target
      [urlparse] raises before the first line modelled here). *)

From Stdlib Require Import ZArith String Ascii List Bool Arith Lia.
From Stdlib Require Import Floats.PrimFloat Floats.SpecFloat Floats.FloatOps.
Import ListNotations.

Set Warnings "-inexact-float,-register-all".

Local Open Scope list_scope.
Local Open Scope string_scope.

(** ** Python values *)

(** The values a handler puts in a response: what [json.dumps] accepts. *)
Inductive json : Type :=
| JBool (b : bool)
| JInt (n : Z)
| JFloat (x : float)
| JStr (s : string)
| JList (l : list json)
| JDict (d : list (string * json)).

Definition dict : Type := list (string * json).

(** [d.get(k)]. *)
Fixpoint lookup (k : string) (d : dict) : option json :=
  match d with
  | [] => None
  | (k', v) :: d' => if String.eqb k k' then Some v else lookup k d'
  end.

(** [k in d]. *)
Definition has_key (k : string) (d : dict) : bool :=
  match lookup k d with
  | Some _ => true
  | None => false
  end.

(** An exception: its class name and [str(e)]. *)
Record exn : Type := Exn { exn_class : string; exn_str : string }.

Inductive result (A : Type) : Type :=
| Ok (a : A)
| Raise (e : exn).
Arguments Ok {A} a.
Arguments Raise {A} e.

(** ** Strings: [str.strip()], [str.split()], [str.startswith] *)

(** [c.isspace()] for the code points below 256. *)
Definition is_space (c : ascii) : bool :=
  let n := nat_of_ascii c in
  (((9 <=? n) && (n <=? 13)) || ((28 <=? n) && (n <=? 32))
   || (n =? 133) || (n =? 160))%nat.

Fixpoint lstrip (s : string) : string :=
  match s with
  | EmptyString => EmptyString
  | String c s' => if is_space c then lstrip s' else s
  end.

Definition string_rev (s : string) : string :=
  string_of_list_ascii (rev (list_ascii_of_string s)).

Definition rstrip (s : string) : string :=
  string_rev (lstrip (string_rev s)).

(** [s.strip()] *)
Definition py_strip (s : string) : string := rstrip (lstrip s).

(** [s.split()] with no separator: the maximal runs of characters that
    are not white space.  [tok] is the run being read. *)
Fixpoint split_from (tok : string) (s : string) : list string :=
  match s with
  | EmptyString =>
      match tok with EmptyString => [] | _ => [tok] end
  | String c s' =>
      if is_space c then
        match tok with
        | EmptyString => split_from EmptyString s'
        | _ => tok :: split_from EmptyString s'
        end
      else split_from (tok ++ String c EmptyString) s'
  end.

Definition py_split (s : string) : list string := split_from EmptyString s.

(** [s.startswith(p)] *)
Definition startswith (p s : string) : bool := String.prefix p s.

(** [xs[0]], which raises [IndexError] on an empty list. *)
Definition index0 {A : Type} (xs : list A) : result A :=
  match xs with
  | x :: _ => Ok x
  | [] => Raise (Exn "IndexError" "list index out of range")
  end.

(** [int(x)] for a float [x]: truncation toward zero; infinities and NaN
    are refused. *)
Definition py_int (x : float) : result Z :=
  match Prim2SF x with
  | S754_zero _ => Ok 0%Z
  | S754_infinity _ =>
      Raise (Exn "OverflowError" "cannot convert float infinity to integer")
  | S754_nan =>
      Raise (Exn "ValueError" "cannot convert float NaN to integer")
  | S754_finite sign m e =>
      let magnitude :=
        if (0 <=? e)%Z then (Z.pos m * 2 ^ e)%Z
        else (Z.pos m / 2 ^ (- e))%Z in
      Ok (if sign then (- magnitude)%Z else magnitude)
  end.

(** ** [datetime] *)

Record datetime : Type := Datetime {
  year : N; month : N; day : N;
  hour : N; minute : N; second : N;
  microsecond : N
}.

(** The last [width] decimal digits of [n], zero padded. *)
Fixpoint zpad (width : nat) (n : N) : string :=
  match width with
  | O => EmptyString
  | S width' =>
      zpad width' (n / 10)%N
      ++ String (ascii_of_N (48 + n mod 10)%N) EmptyString
  end.

(** [d.strftime('%H:%M:%S')] *)
Definition strftime_HMS (d : datetime) : string :=
  zpad 2 (hour d) ++ ":" ++ zpad 2 (minute d) ++ ":" ++ zpad 2 (second d).

(** [d.isoformat()] of a naive datetime: the microseconds are written
    only when they are not zero. *)
Definition isoformat (d : datetime) : string :=
  zpad 4 (year d) ++ "-" ++ zpad 2 (month d) ++ "-" ++ zpad 2 (day d)
  ++ "T" ++ strftime_HMS d
  ++ match microsecond d with
     | N0 => EmptyString
     | us => "." ++ zpad 6 us
     end.


(** ** The host and the effects of a handler *)

(** [subprocess.CompletedProcess] with [capture_output=True, text=True]. *)
Record CompletedProcess : Type := Completed {
  returncode : Z;
  stdout : string;
  stderr : string
}.

(** A call the handler makes to its host. *)
Inductive effect : Type :=
| Now                                                  (* datetime.now() *)
| SubprocessRun (argv : list string) (timeout : option Z)  (* subprocess.run *)
| OpenReadline (path : string)          (* open(path, 'r') and f.readline() *)
| StaticGET (path : string).  (* SimpleHTTPRequestHandler.do_GET on self.path *)

(** The calls made so far, newest first. *)
Definition trace : Type := list effect.

(** How the base class answers a request for a static file: through
    [send_response] (200, 301, 304), which logs one line, or through
    [send_error] (404), which logs two. *)
Inductive static_outcome : Type :=
| StaticResponse (code : Z)
| StaticError (code : Z).

(** The host.  Each answer is indexed by the number of calls made before
    it.  A child process may fail to start, or run past its timeout
    ([subprocess.TimeoutExpired]); a file may be missing or unreadable;
    [float()] may refuse its argument ([ValueError]). *)
Record World : Type := {
  clock : nat -> datetime;
  run_process : nat -> list string -> option Z -> result CompletedProcess;
  read_line : nat -> string -> result string;
  float_of_string : string -> result float;
  static_file : nat -> string -> static_outcome
}.

(** A computation: it reads the host, extends the trace, and returns a
    value or raises.  The calls made before an exception stay made. *)
Definition M (A : Type) : Type := World -> trace -> result A * trace.

Definition ret {A : Type} (a : A) : M A := fun _ tr => (Ok a, tr).

Definition bind {A B : Type} (m : M A) (k : A -> M B) : M B :=
  fun w tr =>
    match m w tr with
    | (Ok a, tr') => k a w tr'
    | (Raise e, tr') => (Raise e, tr')
    end.

(** [try: m  except Exception as e: h e], and also [try: m  except: h e]:
    every modelled exception is an [Exception]. *)
Definition try_except {A : Type} (m : M A) (h : exn -> M A) : M A :=
  fun w tr =>
    match m w tr with
    | (Ok a, tr') => (Ok a, tr')
    | (Raise e, tr') => h e w tr'
    end.

(** A pure step that may raise. *)
Definition lift {A : Type} (r : result A) : M A := fun _ tr => (r, tr).

Declare Scope py_scope.
Delimit Scope py_scope with py.
Notation "x <- m ;; k" := (bind m (fun x => k))
  (at level 61, m at next level, right associativity) : py_scope.
Local Open Scope py_scope.

Definition datetime_now : M datetime :=
  fun w tr => (Ok (clock w (length tr)), Now :: tr).

Definition subprocess_run (argv : list string) (timeout : option Z)
  : M CompletedProcess :=
  fun w tr =>
    (run_process w (length tr) argv timeout, SubprocessRun argv timeout :: tr).

Definition open_readline (path : string) : M string :=
  fun w tr => (read_line w (length tr) path, OpenReadline path :: tr).

(** [super().do_GET()]: the base class resolves [path] under the
    directory of the script and opens that file. *)
Definition static_get (path : string) : M static_outcome :=
  fun w tr => (Ok (static_file w (length tr) path), StaticGET path :: tr).

(** [log_message(format, *args)]: the class's override reads the clock
    and prints the line to the terminal. *)
Definition log_message : M unit :=
  timestamp <- datetime_now ;;
  ret tt.

(** [float(s)] *)
Definition py_float (s : string) : M float :=
  fun w tr => (float_of_string w s, tr).

(** [[f(x) for x in xs]]: left to right, stopping at the first exception. *)
Fixpoint list_comprehension {A B : Type} (f : A -> M B) (xs : list A)
  : M (list B) :=
  match xs with
  | [] => ret []
  | x :: xs' =>
      y <- f x ;;
      ys <- list_comprehension f xs' ;;
      ret (y :: ys)
  end.

(** ** System probe *)

Definition ping_argv : list string := ["ping"; "-c"; "1"; "8.8.8.8"].
Definition ping_timeout : Z := 5.

(** The [try] block of [check_aws_connection]. *)
Definition ping_probe : M bool :=
  result <- subprocess_run ping_argv (Some ping_timeout) ;;
  ret (returncode result =? 0)%Z.

Definition check_aws_connection : M bool :=
  try_except ping_probe (fun _ => ret false).

(** The [try] block of [get_system_uptime]. *)
Definition read_uptime : M Z :=
  line <- open_readline "/proc/uptime" ;;
  field <- lift (index0 (py_split line)) ;;
  uptime_seconds <- py_float field ;;
  lift (py_int uptime_seconds).

Definition get_system_uptime : M Z :=
  try_except read_uptime (fun _ => ret 0%Z).

(** The [try] block of [get_system_load]. *)
Definition read_loadavg : M (list float) :=
  line <- open_readline "/proc/loadavg" ;;
  list_comprehension py_float (firstn 3 (py_split line)).

Definition get_system_load : M (list float) :=
  try_except read_loadavg (fun _ => ret [0.0; 0.0; 0.0]%float).

Definition pgrep_argv : list string := ["pgrep"; "-f"; "cryptoclaude-console"].

(** [len(result.stdout.strip()) > 0] *)
Definition is_running (result : CompletedProcess) : bool :=
  (0 <? String.length (py_strip (stdout result)))%nat.

(** The [try] block of [check_system_health].  The entries of the dict
    literal are evaluated in the order they are written. *)
Definition collect_health : M dict :=
  result <- subprocess_run pgrep_argv None ;;
  let running := is_running result in
  aws_connected <- check_aws_connection ;;
  timestamp <- datetime_now ;;
  uptime <- get_system_uptime ;;
  ret [ ("status", JStr (if running then "healthy" else "stopped"));
        ("cryptoclaude_running", JBool running);
        ("aws_connected", JBool aws_connected);
        ("timestamp", JStr (isoformat timestamp));
        ("uptime", JInt uptime) ].

Definition check_system_health : M dict :=
  try_except collect_health
    (fun e =>
       timestamp <- datetime_now ;;
       ret [ ("status", JStr "error");
             ("error", JStr (exn_str e));
             ("timestamp", JStr (isoformat timestamp)) ]).

(** ** Status aggregator and log buffer *)

Definition get_system_status : M dict :=
  last_prediction_update <- datetime_now ;;
  system_load <- get_system_load ;;
  timestamp <- datetime_now ;;
  ret [ ("portfolio_value", JFloat 127543.21);
        ("portfolio_change", JFloat 3421.83);
        ("portfolio_change_percent", JFloat 2.76);
        ("active_positions", JInt 8);
        ("trading_mode", JStr "paper");
        ("ai_confidence", JFloat 84.2);
        ("claude_features_enabled", JBool true);
        ("positions",
         JList (map JStr
                  ["BTC"; "ETH"; "ADA"; "SOL"; "MATIC"; "LINK"; "DOT";
                   "AVAX"]));
        ("last_prediction_update", JStr (isoformat last_prediction_update));
        ("system_load", JList (map JFloat system_load));
        ("timestamp", JStr (isoformat timestamp)) ].

(** One entry of the [logs] list. *)
Definition log_entry (t : datetime) (level message : string) : json :=
  JDict [ ("timestamp", JStr (strftime_HMS t));
          ("level", JStr level);
          ("message", JStr message) ].

Definition get_recent_logs : M dict :=
  t1 <- datetime_now ;;
  t2 <- datetime_now ;;
  t3 <- datetime_now ;;
  let logs :=
    [ log_entry t1 "INFO" "CryptoClaude system running normally";
      log_entry t2 "SUCCESS" "Claude AI features operational";
      log_entry t3 "INFO" "API connections: 6/6 active" ] in
  timestamp <- datetime_now ;;
  ret [ ("logs", JList logs); ("timestamp", JStr (isoformat timestamp)) ].

(** ** Command dispatcher *)

(** The [except Exception as e] clause shared by the five commands. *)
Definition command_failed (e : exn) : M dict :=
  timestamp <- datetime_now ;;
  ret [ ("status", JStr "error");
        ("message", JStr (exn_str e));
        ("timestamp", JStr (isoformat timestamp)) ].

Definition start_trading : M dict :=
  try_except
    (timestamp <- datetime_now ;;
     ret [ ("status", JStr "success");
           ("message", JStr "Trading system started");
           ("timestamp", JStr (isoformat timestamp)) ])
    command_failed.

Definition stop_trading : M dict :=
  try_except
    (timestamp <- datetime_now ;;
     ret [ ("status", JStr "success");
           ("message", JStr "Trading system stopped");
           ("timestamp", JStr (isoformat timestamp)) ])
    command_failed.

Definition pause_trading : M dict :=
  try_except
    (timestamp <- datetime_now ;;
     ret [ ("status", JStr "success");
           ("message", JStr "Trading system paused");
           ("timestamp", JStr (isoformat timestamp)) ])
    command_failed.

Definition toggle_claude_features : M dict :=
  try_except
    (timestamp <- datetime_now ;;
     ret [ ("status", JStr "success");
           ("message", JStr "Claude features toggled");
           ("claude_enabled", JBool true);
           ("timestamp", JStr (isoformat timestamp)) ])
    command_failed.

Definition refresh_predictions : M dict :=
  try_except
    (timestamp <- datetime_now ;;
     ret [ ("status", JStr "success");
           ("message", JStr "Predictions refreshed");
           ("new_confidence", JFloat 87.1);
           ("symbols_updated", JInt 12);
           ("timestamp", JStr (isoformat timestamp)) ])
    command_failed.

(** ** API router *)

(** The methods the router calls on [self].  Python resolves them on the
    object at run time, so the router is written over any implementation
    of them; [CryptoClaudeHandler] below is the class of the source. *)
Record Handler : Type := {
  self_check_system_health : M dict;
  self_get_system_status : M dict;
  self_get_recent_logs : M dict;
  self_start_trading : M dict;
  self_stop_trading : M dict;
  self_pause_trading : M dict;
  self_toggle_claude_features : M dict;
  self_refresh_predictions : M dict
}.

Definition CryptoClaudeHandler : Handler := {|
  self_check_system_health := check_system_health;
  self_get_system_status := get_system_status;
  self_get_recent_logs := get_recent_logs;
  self_start_trading := start_trading;
  self_stop_trading := stop_trading;
  self_pause_trading := pause_trading;
  self_toggle_claude_features := toggle_claude_features;
  self_refresh_predictions := refresh_predictions
|}.

(** What is written to the client: the status line, the headers the
    handler sets, and the object handed to [json.dumps]. *)
Record HttpResponse : Type := Http {
  status_code : Z;
  headers : list (string * string);
  body : dict
}.

Definition api_headers : list (string * string) :=
  [ ("Content-Type", "application/json");
    ("Access-Control-Allow-Origin", "*");
    ("Access-Control-Allow-Methods", "GET, POST, OPTIONS");
    ("Access-Control-Allow-Headers", "Content-Type") ].

Definition endpoint_not_found : dict :=
  [ ("error", JStr "API endpoint not found"); ("status", JStr "error") ].

(** The [if]/[elif] chain inside the router's [try]. *)
Definition dispatch (self : Handler) (path : string) : M dict :=
  if path =? "/api/health" then self_check_system_health self
  else if path =? "/api/status" then self_get_system_status self
  else if path =? "/api/logs" then self_get_recent_logs self
  else if path =? "/api/trading/start" then self_start_trading self
  else if path =? "/api/trading/stop" then self_stop_trading self
  else if path =? "/api/trading/pause" then self_pause_trading self
  else if path =? "/api/claude/toggle" then self_toggle_claude_features self
  else if path =? "/api/predictions/refresh" then self_refresh_predictions self
  else ret endpoint_not_found.

(** The connection of a request: whether it takes the status line and
    the headers when [end_headers()] flushes them, and whether it takes
    the body at [wfile.write].  A client that has gone away makes either
    raise ([BrokenPipeError], [ConnectionResetError]). *)
Record Connection : Type := {
  end_headers : result unit;
  wfile_write : dict -> result unit
}.

(** A connection that takes everything. *)
Definition open_connection : Connection := {|
  end_headers := Ok tt;
  wfile_write := fun _ => Ok tt
|}.


(** [handle_api_request(parsed_path, method)]; [path] is
    [parsed_path.path], and [method] is not looked at.
    [send_response(200)] logs the request through [log_message]; the
    [send_header] calls only fill a buffer, which [end_headers()] writes
    out; all this stands before the [try], and the final write after it.
    [json.dumps] accepts every value of [json]. *)
Definition handle_api_request
           (conn : Connection) (self : Handler) (path : string)
  : M HttpResponse :=
  _ <- log_message ;;
  _ <- lift (end_headers conn) ;;
  response_data <-
    try_except (dispatch self path)
      (fun e =>
         ret [ ("error", JStr (exn_str e)); ("status", JStr "error") ]) ;;
  _ <- lift (wfile_write conn response_data) ;;
  ret (Http 200 api_headers response_data).

(** A request: [self.path] as received, and [urlparse(self.path).path]
    for a target that [urlparse] accepts. *)
Record Request : Type := {
  raw_path : string;
  parsed_path : string
}.

Inductive reply : Type :=
| ApiReply (r : HttpResponse)
| StaticFile (path : string)      (* SimpleHTTPRequestHandler.do_GET *)
| SendError (code : Z) (message : string).

(** [super().do_GET()] with [self.path = path]: the base class looks
    for the file and logs its answer. *)
Definition super_do_GET (path : string) : M reply :=
  outcome <- static_get path ;;
  match outcome with
  | StaticResponse _ =>
      _ <- log_message ;;
      ret (StaticFile path)
  | StaticError _ =>
      _ <- log_message ;;
      _ <- log_message ;;
      ret (StaticFile path)
  end.

(** [send_error(code, message)]: [log_error] logs a line, and
    [send_response] logs the request. *)
Definition send_error (code : Z) (message : string) : M reply :=
  _ <- log_message ;;
  _ <- log_message ;;
  ret (SendError code message).

Definition do_GET (self : Handler) (req : Request) : M reply :=
  if startswith "/api/" (parsed_path req) then
    r <- handle_api_request open_connection self (parsed_path req) ;;
    ret (ApiReply r)
  else if parsed_path req =? "/" then super_do_GET "/dashboard.html"
  else super_do_GET (raw_path req).

Definition do_POST (self : Handler) (req : Request) : M reply :=
  if startswith "/api/" (parsed_path req) then
    r <- handle_api_request open_connection self (parsed_path req) ;;
    ret (ApiReply r)
  else send_error 404 "Not Found".

Inductive http_method : Type := GET | POST.

Definition handle (self : Handler) (m : http_method) (req : Request)
  : M reply :=
  match m with
  | GET => do_GET self req
  | POST => do_POST self req
  end.

(** The server answers its requests one after the other, a new handler
    object for each; nothing but the host's trace is carried over. *)
Fixpoint serve (self : Handler) (reqs : list (http_method * Request))
  : M (list reply) :=
  match reqs with
  | [] => ret []
  | (m, req) :: reqs' =>
      r <- handle self m req ;;
      rs <- serve self reqs' ;;
      ret (r :: rs)
  end.

(** ** Observations used in the statements *)

(** The uniform envelope: a [status] field and a [timestamp] field. *)
Definition has_envelope (d : dict) : Prop :=
  has_key "status" d = true /\ has_key "timestamp" d = true.

(** The eight paths the router knows. *)
Definition api_endpoints : list string :=
  [ "/api/health"; "/api/status"; "/api/logs";
    "/api/trading/start"; "/api/trading/stop"; "/api/trading/pause";
    "/api/claude/toggle"; "/api/predictions/refresh" ].

Definition command_endpoints : list string :=
  [ "/api/trading/start"; "/api/trading/stop"; "/api/trading/pause";
    "/api/claude/toggle"; "/api/predictions/refresh" ].

Definition is_endpoint (path : string) : bool :=
  existsb (String.eqb path) api_endpoints.

(** [/api/status] and [/api/logs], the two read endpoints other than
    health. *)
Definition is_snapshot_or_logs (path : string) : bool :=
  (path =? "/api/status") || (path =? "/api/logs").

(** The body of the answer to an API request, when there is one. *)
Definition api_body (self : Handler) (path : string) (w : World) (tr : trace)
  : option dict :=
  match handle_api_request open_connection self path w tr with
  | (Ok r, _) => Some (body r)
  | (Raise _, _) => None
  end.

(** The trace after a computation. *)
Definition after {A : Type} (m : M A) (w : World) (tr : trace) : trace :=
  snd (m w tr).

(** [claudeFeaturesEnabled] as the status operation reports it. *)
Definition claude_features_enabled (w : World) (tr : trace) : option json :=
  match get_system_status w tr with
  | (Ok d, _) => lookup "claude_features_enabled" d
  | (Raise _, _) => None
  end.

(** The boolean a toggle call returns. *)
Definition toggle_result (w : World) (tr : trace) : option json :=
  match toggle_claude_features w tr with
  | (Ok d, _) => lookup "claude_enabled" d
  | (Raise _, _) => None
  end.

(** "Each call flips the flag on the shared snapshot and returns the
    resulting boolean", for a call made at [tr]. *)
Definition toggle_flips (w : World) (tr : trace) : Prop :=
  exists b : bool,
    claude_features_enabled w tr = Some (JBool b) /\
    claude_features_enabled w (after toggle_claude_features w tr)
      = Some (JBool (negb b)) /\
    toggle_result w tr = Some (JBool (negb b)).

(** A response without its two time fields. *)
Definition timestamp_fields : list string :=
  [ "timestamp"; "last_prediction_update" ].

Definition without_timestamps (d : dict) : dict :=
  filter (fun kv => negb (existsb (String.eqb (fst kv)) timestamp_fields)) d.

(** What [GET /api/status] answers at [tr], if it answers. *)
Definition status_snapshot (w : World) (tr : trace) : option dict :=
  match
    do_GET CryptoClaudeHandler
      {| raw_path := "/api/status"; parsed_path := "/api/status" |} w tr
  with
  | (Ok (ApiReply r), _) => Some (body r)
  | _ => None
  end.

(** A request for one of the command endpoints, by either method, with
    any query string. *)
Definition is_command_request (mr : http_method * Request) : Prop :=
  In (parsed_path (snd mr)) command_endpoints.

(** ** Two hosts for the examples *)

(** The end of a line of text. *)
Definition newline : string := String (ascii_of_nat 10) EmptyString.

(** A host on which the trading console runs, the network answers and
    /proc is readable. *)
Definition host_up : World := {|
  clock := fun n => Datetime 2025 1 15 9 30 (N.of_nat n) 0;
  run_process := fun _ argv _ =>
    match argv with
    | "pgrep" :: _ => Ok (Completed 0 ("4242" ++ newline) "")
    | _ => Ok (Completed 0 "1 packets transmitted, 1 received" "")
    end;
  read_line := fun _ path =>
    if path =? "/proc/uptime" then Ok ("86400.25 170000.50" ++ newline)
    else if path =? "/proc/loadavg" then
      Ok ("0.5 0.25 0.125 1/189 4242" ++ newline)
    else Raise (Exn "FileNotFoundError" "[Errno 2] No such file or directory");
  float_of_string := fun s =>
    if s =? "86400.25" then Ok 86400.25%float
    else if s =? "0.5" then Ok 0.5%float
    else if s =? "0.25" then Ok 0.25%float
    else if s =? "0.125" then Ok 0.125%float
    else Raise (Exn "ValueError" "could not convert string to float");
  static_file := fun _ path =>
    if path =? "/dashboard.html" then StaticResponse 200
    else StaticError 404
|}.

(** A host without [pgrep], without network and without /proc. *)
Definition host_down : World := {|
  clock := fun n => Datetime 2025 1 15 9 30 (N.of_nat n) 500000;
  run_process := fun _ argv _ =>
    match argv with
    | "pgrep" :: _ =>
        Raise (Exn "FileNotFoundError"
                 "[Errno 2] No such file or directory: 'pgrep'")
    | _ => Raise (Exn "TimeoutExpired" "timed out after 5 seconds")
    end;
  read_line := fun _ _ =>
    Raise (Exn "FileNotFoundError" "[Errno 2] No such file or directory");
  float_of_string := fun _ =>
    Raise (Exn "ValueError" "could not convert string to float");
  static_file := fun _ _ => StaticError 404
|}.

(** A host on which the console runs but the network does not answer:
    the report is "healthy" and [aws_connected] is false. *)
Definition host_offline : World := {|
  clock := clock host_up;
  run_process := fun _ argv _ =>
    match argv with
    | "pgrep" :: _ => Ok (Completed 0 ("4242" ++ newline) "")
    | _ => Ok (Completed 1 "1 packets transmitted, 0 received" "")
    end;
  read_line := read_line host_up;
  float_of_string := float_of_string host_up;
  static_file := static_file host_up
|}.

(** A host whose load rises while the server runs: /proc/loadavg reads
    differently from the fourth call on. *)
Definition host_busy : World := {|
  clock := clock host_up;
  run_process := run_process host_up;
  read_line := fun n path =>
    if path =? "/proc/loadavg" then
      if (n <? 4)%nat then Ok ("0.5 0.25 0.125 1/189 4242" ++ newline)
      else Ok ("0.25 0.25 0.125 2/189 4243" ++ newline)
    else read_line host_up n path;
  float_of_string := float_of_string host_up;
  static_file := static_file host_up
|}.

(** A subclass whose health check fails outright. *)
Definition FailingHealthHandler : Handler := {|
  self_check_system_health :=
    lift (Raise (Exn "RuntimeError" "probe unavailable"));
  self_get_system_status := get_system_status;
  self_get_recent_logs := get_recent_logs;
  self_start_trading := start_trading;
  self_stop_trading := stop_trading;
  self_pause_trading := pause_trading;
  self_toggle_claude_features := toggle_claude_features;
  self_refresh_predictions := refresh_predictions
|}.

(** ** What a handler may ask of its host *)



(** The fields of a status answer that are read afresh at each request:
    the two times and the load sample. *)
Definition volatile_fields : list string :=
  [ "timestamp"; "last_prediction_update"; "system_load" ].

Definition without_volatile (d : dict) : dict :=
  filter (fun kv => negb (existsb (String.eqb (fst kv)) volatile_fields)) d.


(** The keys of a dict, in order. *)
Definition keys (d : dict) : list string := map fst d.

(** ** Starting the server *)

(** An exception raised while the server starts or runs: an [OSError]
    (or a subclass) with its [errno] attribute, or any other
    [Exception]. *)
Inductive raised : Type :=
| OSError (errno : option Z) (e : exn)
| OtherException (e : exn).

(** How [httpd.serve_forever()] ends: the user interrupts it, it raises,
    or it does not end. *)
Inductive serve_outcome : Type :=
| KeyboardInterrupt
| ServeRaised (r : raised)
| RunsForever.

(** The host of [start_dashboard_server]: whether binding the port, the
    start of the browser timer and the serving loop succeed. *)
Record ServerHost : Type := {
  bind_outcome : Z -> option raised;   (* HTTPServer(('', port), ...) *)
  timer_outcome : option raised;       (* threading.Timer(...).start() *)
  serve_forever_outcome : serve_outcome
}.

(** What [start_dashboard_server] does, in order.  A [Print...] event
    stands for the lines the source prints at that point. *)
Inductive server_event : Type :=
| PrintBanner (port : Z)
| Bind (port : Z)
| PrintStarted (port : Z)
| StartBrowserTimer (port : Z)  (* the timer started; it opens
                                   http://localhost:port after 1s *)
| PrintOpening
| ServeForever
| PrintShutdownRequested
| Shutdown                      (* httpd.shutdown() *)
| ServerClose                   (* leaving the [with] block *)
| PrintPortInUse (port : Z)
| PrintErrorStarting (e : exn)
| PrintUnexpected (e : exn).

Inductive completion : Type :=
| Returned
| StillServing.

(** [e.errno == n]; the attribute may be [None]. *)
Definition errno_is (n : Z) (errno : option Z) : bool :=
  match errno with
  | Some k => (k =? n)%Z
  | None => false
  end.

(** The two [except] clauses of [start_dashboard_server]. *)
Definition report_startup_failure (port : Z) (r : raised) : list server_event :=
  match r with
  | OSError errno e =>
      if errno_is 48 errno then [PrintPortInUse port]
      else [PrintErrorStarting e]
  | OtherException e => [PrintUnexpected e]
  end.

(** The body of the inner [try], once the server is bound and the
    browser dealt with. *)
Definition keep_serving (h : ServerHost) (port : Z)
  : list server_event * completion :=
  match serve_forever_outcome h with
  | RunsForever => ([ServeForever], StillServing)
  | KeyboardInterrupt =>
      ([ServeForever; PrintShutdownRequested; Shutdown; ServerClose], Returned)
  | ServeRaised r =>
      ([ServeForever; ServerClose] ++ report_startup_failure port r, Returned)%list
  end.

Definition start_dashboard_server (h : ServerHost) (port : Z) (auto_open : bool)
  : list server_event * completion :=
  match bind_outcome h port with
  | Some r =>
      ([PrintBanner port; Bind port] ++ report_startup_failure port r,
       Returned)%list
  | None =>
      if auto_open then
        match timer_outcome h with
        | Some r =>
            ([PrintBanner port; Bind port; PrintStarted port; ServerClose]
               ++ report_startup_failure port r, Returned)%list
        | None =>
            let (events, c) := keep_serving h port in
            ([PrintBanner port; Bind port; PrintStarted port;
              StartBrowserTimer port; PrintOpening] ++ events, c)%list
        end
      else
        let (events, c) := keep_serving h port in
        ([PrintBanner port; Bind port; PrintStarted port] ++ events, c)%list
  end.

(** The parsed command line: [--port] (8080 when absent) and
    [--no-open]. *)
Record Args : Type := { arg_port : Z; arg_no_open : bool }.

Definition default_args : Args := {| arg_port := 8080; arg_no_open := false |}.

(** The [__main__] block after [parse_args()]. *)
Definition main (h : ServerHost) (args : Args)
  : list server_event * completion :=
  start_dashboard_server h (arg_port args) (negb (arg_no_open args)).

Definition is_browser_timer (e : server_event) : bool :=
  match e with StartBrowserTimer _ => true | _ => false end.

Definition is_server_close (e : server_event) : bool :=
  match e with ServerClose => true | _ => false end.

Definition is_serve_forever (e : server_event) : bool :=
  match e with ServeForever => true | _ => false end.

Definition is_port_in_use (e : server_event) : bool :=
  match e with PrintPortInUse _ => true | _ => false end.

(** A server host on which the port is taken, as Linux reports it. *)
Definition port_taken_linux : ServerHost := {|
  bind_outcome := fun _ =>
    Some (OSError (Some 98%Z)
            (Exn "OSError" "[Errno 98] Address already in use"));
  timer_outcome := None;
  serve_forever_outcome := RunsForever
|}.

(** The same on macOS, where the error number is 48. *)
Definition port_taken_macos : ServerHost := {|
  bind_outcome := fun _ =>
    Some (OSError (Some 48%Z)
            (Exn "OSError" "[Errno 48] Address already in use"));
  timer_outcome := None;
  serve_forever_outcome := RunsForever
|}.

(** A server host that cannot start one more thread. *)
Definition no_more_threads : ServerHost := {|
  bind_outcome := fun _ => None;
  timer_outcome :=
    Some (OtherException (Exn "RuntimeError" "can't start new thread"));
  serve_forever_outcome := RunsForever
|}.

(** A server host on which everything works until the user presses
    Ctrl-C. *)
Definition interrupted_by_user : ServerHost := {|
  bind_outcome := fun _ => None;
  timer_outcome := None;
  serve_forever_outcome := KeyboardInterrupt
|}.

(** * Properties *)

(** ** Runs on the two hosts *)

Example health_on_host_up :
  check_system_health host_up [] =
    (Ok [ ("status", JStr "healthy");
          ("cryptoclaude_running", JBool true);
          ("aws_connected", JBool true);
          ("timestamp", JStr "2025-01-15T09:30:02");
          ("uptime", JInt 86400) ],
     [ OpenReadline "/proc/uptime"; Now;
       SubprocessRun ping_argv (Some 5%Z); SubprocessRun pgrep_argv None ]).
Proof. reflexivity. Qed.

Example health_on_host_down :
  check_system_health host_down [] =
    (Ok [ ("status", JStr "error");
          ("error", JStr "[Errno 2] No such file or directory: 'pgrep'");
          ("timestamp", JStr "2025-01-15T09:30:01.500000") ],
     [ Now; SubprocessRun pgrep_argv None ]).
Proof. reflexivity. Qed.

Example load_on_host_up :
  fst (get_system_load host_up []) = Ok [0.5; 0.25; 0.125]%float.
Proof. reflexivity. Qed.

Example split_uptime_line :
  py_split ("  86400.25 170000.50" ++ newline) = ["86400.25"; "170000.50"].
Proof. reflexivity. Qed.

Example probes_on_host_down :
  check_aws_connection host_down []
    = (Ok false, [SubprocessRun ping_argv (Some 5%Z)]) /\
  get_system_uptime host_down [] = (Ok 0%Z, [OpenReadline "/proc/uptime"]) /\
  get_system_load host_down []
    = (Ok [0.0; 0.0; 0.0]%float, [OpenReadline "/proc/loadavg"]).
Proof. repeat split. Qed.

(** An empty /proc/uptime makes [split()[0]] raise; a field that
    [float()] refuses makes the conversion raise. *)
Example uptime_of_unusable_line :
  let blank := {| clock := clock host_up;
                  run_process := run_process host_up;
                  read_line := fun _ _ => Ok newline;
                  float_of_string := float_of_string host_up;
                  static_file := static_file host_up |} in
  let garbled := {| clock := clock host_up;
                    run_process := run_process host_up;
                    read_line := fun _ _ => Ok ("n/a 0.0" ++ newline);
                    float_of_string := float_of_string host_up;
                    static_file := static_file host_up |} in
  fst (read_uptime blank [])
    = Raise (Exn "IndexError" "list index out of range") /\
  fst (get_system_uptime blank []) = Ok 0%Z /\
  fst (get_system_uptime garbled []) = Ok 0%Z /\
  fst (get_system_load garbled []) = Ok [0.0; 0.0; 0.0]%float.
Proof. repeat split. Qed.

Example start_then_stop :
  fst (serve CryptoClaudeHandler
         [ (POST, {| raw_path := "/api/trading/start";
                     parsed_path := "/api/trading/start" |});
           (POST, {| raw_path := "/api/trading/stop";
                     parsed_path := "/api/trading/stop" |}) ]
         host_up [])
  = Ok [ ApiReply (Http 200 api_headers
                     [ ("status", JStr "success");
                       ("message", JStr "Trading system started");
                       ("timestamp", JStr "2025-01-15T09:30:01") ]);
         ApiReply (Http 200 api_headers
                     [ ("status", JStr "success");
                       ("message", JStr "Trading system stopped");
                       ("timestamp", JStr "2025-01-15T09:30:03") ]) ].
Proof. reflexivity. Qed.

Example static_requests :
  do_GET CryptoClaudeHandler {| raw_path := "/"; parsed_path := "/" |}
    host_up []
  = (Ok (StaticFile "/dashboard.html"), [Now; StaticGET "/dashboard.html"]) /\
  do_GET CryptoClaudeHandler
    {| raw_path := "/style.css?v=2"; parsed_path := "/style.css" |}
    host_up []
  = (Ok (StaticFile "/style.css?v=2"),
     [Now; Now; StaticGET "/style.css?v=2"]) /\
  do_POST CryptoClaudeHandler
    {| raw_path := "/style.css"; parsed_path := "/style.css" |}
    host_up []
  = (Ok (SendError 404 "Not Found"), [Now; Now]).
Proof. repeat split. Qed.

(** A request is logged before its handler runs: the time in the answer
    is the second reading of the clock. *)
Example command_reads_clock_twice :
  handle CryptoClaudeHandler POST
    {| raw_path := "/api/trading/pause"; parsed_path := "/api/trading/pause" |}
    host_down []
  = (Ok (ApiReply (Http 200 api_headers
                     [ ("status", JStr "success");
                       ("message", JStr "Trading system paused");
                       ("timestamp", JStr "2025-01-15T09:30:01.500000") ])),
     [Now; Now]).
Proof. reflexivity. Qed.

Example blank_output_is_not_running :
  is_running (Completed 1 "" "") = false /\
  is_running (Completed 0 (" " ++ newline) "") = false /\
  is_running (Completed 0 ("4242" ++ newline ++ "4243" ++ newline) "") = true.
Proof. repeat split. Qed.

Example isoformat_pads :
  isoformat (Datetime 2025 9 3 7 5 9 1234) = "2025-09-03T07:05:09.001234" /\
  isoformat (Datetime 2025 12 31 23 59 59 0) = "2025-12-31T23:59:59".
Proof. split; reflexivity. Qed.

Example int_truncates :
  py_int 86400.25%float = Ok 86400%Z /\ py_int (-2.5)%float = Ok (-2)%Z.
Proof. split; reflexivity. Qed.

(** ** The probe's sub-queries *)

Ltac unfold_py :=
  unfold try_except, bind, ret, lift, datetime_now, subprocess_run,
    open_readline, py_float in *.

(** Parsing floats asks nothing of the host. *)
Lemma list_comprehension_float_trace
      (xs : list string) (w : World) (tr : trace) :
  snd (list_comprehension py_float xs w tr) = tr.
Proof.
  revert tr; induction xs as [|x xs IH]; intros tr; simpl; [reflexivity|].
  unfold bind at 1. unfold py_float at 1.
  destruct (float_of_string w x); [|reflexivity].
  unfold bind. specialize (IH tr).
  destruct (list_comprehension py_float xs w tr) as [[ys|e] tr'];
    simpl in *; assumption.
Qed.

(** The three sub-queries always return, and each asks the host exactly
    one question. *)
Lemma check_aws_connection_returns (w : World) (tr : trace) :
  exists b : bool,
    check_aws_connection w tr
      = (Ok b, SubprocessRun ping_argv (Some ping_timeout) :: tr).
Proof.
  unfold check_aws_connection, ping_probe; unfold_py.
  destruct (run_process w (length tr) ping_argv (Some ping_timeout)); eauto.
Qed.

Lemma read_uptime_trace (w : World) (tr : trace) :
  snd (read_uptime w tr) = OpenReadline "/proc/uptime" :: tr.
Proof.
  unfold read_uptime; unfold_py.
  destruct (read_line w (length tr) "/proc/uptime") as [line|e]; [|reflexivity].
  destruct (index0 (py_split line)) as [field|e]; [|reflexivity].
  destruct (float_of_string w field); reflexivity.
Qed.

Lemma get_system_uptime_returns (w : World) (tr : trace) :
  exists n : Z,
    get_system_uptime w tr = (Ok n, OpenReadline "/proc/uptime" :: tr).
Proof.
  unfold get_system_uptime, try_except.
  pose proof (read_uptime_trace w tr) as Htr.
  destruct (read_uptime w tr) as [[n|e] tr']; simpl in Htr; subst tr';
    unfold ret; eauto.
Qed.

Lemma read_loadavg_trace (w : World) (tr : trace) :
  snd (read_loadavg w tr) = OpenReadline "/proc/loadavg" :: tr.
Proof.
  unfold read_loadavg, bind, open_readline.
  destruct (read_line w (length tr) "/proc/loadavg") as [line|e];
    [|reflexivity].
  apply list_comprehension_float_trace.
Qed.

Lemma get_system_load_returns (w : World) (tr : trace) :
  exists load : list float,
    get_system_load w tr = (Ok load, OpenReadline "/proc/loadavg" :: tr).
Proof.
  unfold get_system_load, try_except.
  pose proof (read_loadavg_trace w tr) as Htr.
  destruct (read_loadavg w tr) as [[l|e] tr']; simpl in Htr; subst tr';
    unfold ret; eauto.
Qed.

(** C7. The probe's sub-queries degrade to defaults and never raise.
    The connectivity check always returns a boolean after a single
    [ping] run with a timeout of 5 seconds (at most 5), and that boolean
    is [false] whenever the run fails or times out (raises) or exits with
    a code other than 0.  The uptime and load queries always return, and
    whenever the read fails (the file cannot be read, or its content makes
    the [try] block raise) they give [0] and [[0.0, 0.0, 0.0]]. *)
Theorem probe_subqueries_degrade (w : World) (tr : trace) :
  (ping_timeout <= 5)%Z /\
  (exists b : bool,
     check_aws_connection w tr
       = (Ok b, SubprocessRun ping_argv (Some ping_timeout) :: tr) /\
     (forall e, run_process w (length tr) ping_argv (Some ping_timeout)
                = Raise e -> b = false) /\
     (forall r, run_process w (length tr) ping_argv (Some ping_timeout)
                = Ok r -> returncode r <> 0%Z -> b = false)) /\
  (exists n : Z,
     fst (get_system_uptime w tr) = Ok n /\
     (forall e, fst (read_uptime w tr) = Raise e -> n = 0%Z) /\
     (forall e, read_line w (length tr) "/proc/uptime" = Raise e -> n = 0%Z)) /\
  (exists load : list float,
     fst (get_system_load w tr) = Ok load /\
     (forall e, fst (read_loadavg w tr) = Raise e ->
                load = [0.0; 0.0; 0.0]%float) /\
     (forall e, read_line w (length tr) "/proc/loadavg" = Raise e ->
                load = [0.0; 0.0; 0.0]%float)).
Proof.
  split; [unfold ping_timeout; lia|].
  split; [|split].
  - unfold check_aws_connection, ping_probe; unfold_py.
    destruct (run_process w (length tr) ping_argv (Some ping_timeout))
      as [r|e] eqn:Hrun.
    + exists (returncode r =? 0)%Z. split; [reflexivity|].
      split; intros; [discriminate|].
      match goal with H : Ok _ = Ok _ |- _ => injection H as <- end.
      apply Z.eqb_neq; assumption.
    + exists false. split; [reflexivity|].
      split; intros; [reflexivity|discriminate].
  - unfold get_system_uptime, try_except.
    assert (Hopen : forall e,
               read_line w (length tr) "/proc/uptime" = Raise e ->
               exists tr', read_uptime w tr = (Raise e, tr')).
    { intros e He. unfold read_uptime; unfold_py. rewrite He. eauto. }
    destruct (read_uptime w tr) as [[n|e] tr'] eqn:Hread; unfold ret; simpl.
    + exists n. split; [reflexivity|].
      split; intros e' He'; [discriminate|].
      destruct (Hopen e' He') as [tr'' Habs]; discriminate.
    + exists 0%Z. repeat split; reflexivity.
  - unfold get_system_load, try_except.
    assert (Hopen : forall e,
               read_line w (length tr) "/proc/loadavg" = Raise e ->
               exists tr', read_loadavg w tr = (Raise e, tr')).
    { intros e He. unfold read_loadavg; unfold_py. rewrite He. eauto. }
    destruct (read_loadavg w tr) as [[l|e] tr'] eqn:Hread; unfold ret; simpl.
    + exists l. split; [reflexivity|].
      split; intros e' He'; [discriminate|].
      destruct (Hopen e' He') as [tr'' Habs]; discriminate.
    + exists [0.0; 0.0; 0.0]%float. repeat split; reflexivity.
Qed.


(** ** White space and the process lookup *)

Lemma lstrip_blank (s : string) :
  forallb is_space (list_ascii_of_string s) = true -> lstrip s = "".
Proof.
  induction s as [|c s IH]; simpl; [reflexivity|].
  destruct (is_space c); simpl; [exact IH|discriminate].
Qed.

Lemma lstrip_not_blank (s : string) :
  forallb is_space (list_ascii_of_string s) = false ->
  exists c t, lstrip s = String c t /\ is_space c = false.
Proof.
  induction s as [|c s IH]; simpl; [discriminate|].
  destruct (is_space c) eqn:Hc; simpl; [exact IH|].
  intros _. exists c, s. split; [reflexivity|exact Hc].
Qed.

Lemma forallb_string_rev (s : string) :
  forallb is_space (list_ascii_of_string (string_rev s))
  = forallb is_space (list_ascii_of_string s).
Proof.
  unfold string_rev. rewrite list_ascii_of_string_of_list_ascii.
  generalize (list_ascii_of_string s) as l.
  induction l as [|c l IH]; simpl; [reflexivity|].
  rewrite forallb_app, IH. simpl.
  rewrite andb_true_r. apply andb_comm.
Qed.

Lemma string_rev_not_empty (c : ascii) (t : string) :
  string_rev (String c t) <> "".
Proof.
  unfold string_rev. simpl. intros H.
  apply (f_equal list_ascii_of_string) in H.
  rewrite list_ascii_of_string_of_list_ascii in H. simpl in H.
  destruct (rev (list_ascii_of_string t)); discriminate.
Qed.

Lemma py_strip_empty_iff (s : string) :
  py_strip s = "" <-> forallb is_space (list_ascii_of_string s) = true.
Proof.
  unfold py_strip, rstrip. split.
  - intros H.
    destruct (forallb is_space (list_ascii_of_string s)) eqn:Hs;
      [reflexivity|exfalso].
    destruct (lstrip_not_blank s Hs) as (c & t & Hl & Hc).
    rewrite Hl in H.
    assert (Hrev : forallb is_space
                     (list_ascii_of_string (string_rev (String c t))) = false).
    { rewrite forallb_string_rev. simpl. now rewrite Hc. }
    destruct (lstrip_not_blank _ Hrev) as (c' & t' & Hl' & _).
    rewrite Hl' in H. exact (string_rev_not_empty c' t' H).
  - intros Hs. rewrite (lstrip_blank s Hs). reflexivity.
Qed.


(** The code's test of [pgrep]'s output, read on its characters. *)
Lemma is_running_blank (r : CompletedProcess) :
  is_running r = negb (forallb is_space (list_ascii_of_string (stdout r))).
Proof.
  unfold is_running.
  destruct (forallb is_space (list_ascii_of_string (stdout r))) eqn:Hs.
  - apply py_strip_empty_iff in Hs. rewrite Hs. reflexivity.
  - destruct (py_strip (stdout r)) eqn:Hstrip; [|reflexivity].
    apply py_strip_empty_iff in Hstrip. congruence.
Qed.

(** ** Health report *)

(** Collection fails exactly when the process-table lookup does. *)
Lemma collect_health_lookup_failed (w : World) (tr : trace) (e : exn) :
  run_process w (length tr) pgrep_argv None = Raise e ->
  collect_health w tr = (Raise e, SubprocessRun pgrep_argv None :: tr).
Proof.
  intros Hrun. unfold collect_health, bind at 1, subprocess_run.
  rewrite Hrun. reflexivity.
Qed.

Lemma collect_health_lookup_done (w : World) (tr : trace)
      (r : CompletedProcess) :
  run_process w (length tr) pgrep_argv None = Ok r ->
  exists (aws : bool) (uptime : Z),
    collect_health w tr =
      (Ok [ ("status", JStr (if is_running r then "healthy" else "stopped"));
            ("cryptoclaude_running", JBool (is_running r));
            ("aws_connected", JBool aws);
            ("timestamp", JStr (isoformat (clock w (2 + length tr))));
            ("uptime", JInt uptime) ],
       [ OpenReadline "/proc/uptime"; Now;
         SubprocessRun ping_argv (Some ping_timeout);
         SubprocessRun pgrep_argv None ] ++ tr)%list.
Proof.
  intros Hrun. unfold collect_health, bind at 1, subprocess_run.
  rewrite Hrun.
  destruct (check_aws_connection_returns w
              (SubprocessRun pgrep_argv None :: tr)) as [aws Haws].
  unfold bind at 1. rewrite Haws.
  unfold bind at 1, datetime_now.
  destruct (get_system_uptime_returns w
              (Now :: SubprocessRun ping_argv (Some ping_timeout)
                   :: SubprocessRun pgrep_argv None :: tr))
    as [uptime Hup].
  unfold bind. rewrite Hup.
  exists aws, uptime. reflexivity.
Qed.

(** The report is one of two shapes, and both carry the envelope. *)
Lemma check_system_health_returns (w : World) (tr : trace) :
  exists (report : dict) (tr' : trace),
    check_system_health w tr = (Ok report, tr') /\ has_envelope report.
Proof.
  unfold check_system_health, try_except.
  destruct (run_process w (length tr) pgrep_argv None) as [r|e] eqn:Hrun.
  - destruct (collect_health_lookup_done w tr r Hrun) as (aws & up & Hc).
    rewrite Hc. eexists; eexists. split; [reflexivity|].
    split; reflexivity.
  - rewrite (collect_health_lookup_failed w tr e Hrun).
    eexists; eexists. split; [reflexivity|]. split; reflexivity.
Qed.

(** C5. [check_system_health] never raises: on every host and at every
    moment it returns a report.  When collecting the report raises an
    exception [e], the report is status "error", the text of [e], and the
    time read from the clock right after the failure. *)
Theorem check_system_health_never_raises
        (w : World) (tr : trace) (e : exn) (tr' : trace) :
  collect_health w tr = (Raise e, tr') ->
  check_system_health w tr =
    (Ok [ ("status", JStr "error");
          ("error", JStr (exn_str e));
          ("timestamp", JStr (isoformat (clock w (length tr')))) ],
     Now :: tr')
  /\ forall (w0 : World) (tr0 : trace),
       exists (report : dict) (tr1 : trace),
         check_system_health w0 tr0 = (Ok report, tr1).
Proof.
  intros Hfail. split.
  - unfold check_system_health, try_except. rewrite Hfail. reflexivity.
  - intros w0 tr0.
    destruct (check_system_health_returns w0 tr0) as (d & tr1 & H & _).
    eauto.
Qed.

(** On a host without [pgrep], the lookup fails and the report says so. *)
Lemma check_system_health_never_raises_witness :
  check_system_health host_down [] =
    (Ok [ ("status", JStr "error");
          ("error", JStr "[Errno 2] No such file or directory: 'pgrep'");
          ("timestamp", JStr "2025-01-15T09:30:01.500000") ],
     [ Now; SubprocessRun pgrep_argv None ]).
Proof.
  exact (proj1 (check_system_health_never_raises host_down []
                  (Exn "FileNotFoundError"
                     "[Errno 2] No such file or directory: 'pgrep'")
                  [SubprocessRun pgrep_argv None] eq_refl)).
Defined.

(** C6. When the health check completes without an internal exception
    (the lookup of the trading process returned), the [status] field is
    "healthy" if the lookup printed something other than white space,
    that is, if the process is present, and "stopped" otherwise; so it is
    "healthy" if and only if the process is present. *)
(** C6. When the health check completes without an internal exception
    (the lookup of the trading process returned), the [status] field is
    "healthy" if and only if the process is present, that is, if the
    lookup printed at least one character that is not white space, and
    "stopped" otherwise, that is, if it printed nothing or white space
    only; [cryptoclaude_running] says the same. *)
Theorem health_status_follows_process
        (w : World) (tr : trace) (r : CompletedProcess) :
  run_process w (length tr) ["pgrep"; "-f"; "cryptoclaude-console"] None
    = Ok r ->
  exists (report : dict) (tr' : trace),
    check_system_health w tr = (Ok report, tr') /\
    (lookup "status" report = Some (JStr "healthy")
     <-> exists c : ascii,
           In c (list_ascii_of_string (stdout r)) /\ is_space c = false) /\
    (lookup "status" report = Some (JStr "stopped")
     <-> forall c : ascii,
           In c (list_ascii_of_string (stdout r)) -> is_space c = true) /\
    (lookup "cryptoclaude_running" report = Some (JBool true)
     <-> lookup "status" report = Some (JStr "healthy")).
Proof.
  intros Hrun.
  destruct (collect_health_lookup_done w tr r Hrun) as (aws & uptime & Hc).
  unfold check_system_health, try_except. rewrite Hc.
  eexists; eexists. split; [reflexivity|].
  cbn [lookup String.eqb Ascii.eqb Bool.eqb].
  rewrite (is_running_blank r).
  destruct (forallb is_space (list_ascii_of_string (stdout r))) eqn:Hblank;
    cbn [negb].
  - pose proof (proj1 (forallb_forall _ _) Hblank) as Hall.
    split; [|split].
    + split; [discriminate|].
      intros (c & Hin & Hc'). rewrite (Hall c Hin) in Hc'. discriminate.
    + split; [intros _; exact Hall|reflexivity].
    + split; discriminate.
  - split; [|split].
    + split; [intros _|reflexivity].
      destruct (existsb (fun c => negb (is_space c))
                  (list_ascii_of_string (stdout r))) eqn:Hex.
      * apply existsb_exists in Hex. destruct Hex as (c & Hin & Hc').
        exists c. split; [exact Hin|].
        destruct (is_space c); [discriminate|reflexivity].
      * exfalso. rewrite <- not_true_iff_false in Hblank. apply Hblank.
        apply forallb_forall. intros c Hin.
        rewrite <- not_true_iff_false in Hex.
        destruct (is_space c) eqn:Hc'; [reflexivity|].
        exfalso. apply Hex. apply existsb_exists. exists c.
        rewrite Hc'. split; [exact Hin|reflexivity].
    + split; [discriminate|].
      intros Hall. apply forallb_forall in Hall. congruence.
    + split; reflexivity.
Qed.

Lemma health_status_follows_process_witness :
  exists (report : dict) (tr' : trace),
    check_system_health host_up [] = (Ok report, tr') /\
    (lookup "status" report = Some (JStr "healthy")
     <-> exists c : ascii,
           In c (list_ascii_of_string ("4242" ++ newline))
           /\ is_space c = false) /\
    (lookup "status" report = Some (JStr "stopped")
     <-> forall c : ascii,
           In c (list_ascii_of_string ("4242" ++ newline))
           -> is_space c = true) /\
    (lookup "cryptoclaude_running" report = Some (JBool true)
     <-> lookup "status" report = Some (JStr "healthy")).
Proof.
  exact (health_status_follows_process host_up []
           (Completed 0 ("4242" ++ newline) "") eq_refl).
Defined.
(** ** Router *)

Lemma dispatch_unknown (self : Handler) (path : string) :
  ~ In path api_endpoints -> dispatch self path = ret endpoint_not_found.
Proof.
  intros Hnot. unfold dispatch.
  repeat match goal with
         | |- context [String.eqb path ?s] =>
             destruct (String.eqb_spec path s) as [->|_];
             [exfalso; apply Hnot; simpl; tauto|]
         end.
  reflexivity.
Qed.

Lemma is_endpoint_spec (path : string) :
  is_endpoint path = true <-> In path api_endpoints.
Proof.
  unfold is_endpoint. rewrite existsb_exists. split.
  - intros (s & Hin & Heq). apply String.eqb_eq in Heq. subst. exact Hin.
  - intros Hin. exists path. split; [exact Hin|apply String.eqb_refl].
Qed.


(** The router on a connection that takes what is written: the request
    is logged, then the handler runs and its exception, if any, becomes
    the body. *)
Lemma handle_api_request_open
      (self : Handler) (path : string) (w : World) (tr : trace) :
  handle_api_request open_connection self path w tr =
    match dispatch self path w (Now :: tr) with
    | (Ok d, tr') => (Ok (Http 200 api_headers d), tr')
    | (Raise e, tr') =>
        (Ok (Http 200 api_headers
               [ ("error", JStr (exn_str e)); ("status", JStr "error") ]),
         tr')
    end.
Proof.
  unfold handle_api_request, log_message, bind, try_except, lift, ret,
    datetime_now, open_connection, end_headers, wfile_write.
  destruct (dispatch self path w (Now :: tr)) as [[d|e] tr']; reflexivity.
Qed.

(** On such a connection the router itself never raises, whatever the
    handlers do. *)
Lemma handle_api_request_returns
      (self : Handler) (path : string) (w : World) (tr : trace) :
  exists (d : dict) (tr' : trace),
    handle_api_request open_connection self path w tr
      = (Ok (Http 200 api_headers d), tr').
Proof.
  rewrite handle_api_request_open.
  destruct (dispatch self path w (Now :: tr)) as [[d|e] tr']; eauto.
Qed.


(** C3. A request for a path that is none of the eight endpoints is
    answered with the body [{error: "API endpoint not found", status:
    "error"}], whose error message is not empty, under status line 200
    and the usual headers, not under an HTTP error code; this holds for
    GET and POST requests under [/api/] alike and whatever the handlers
    are.  No handler is called: the one call to the host is the reading
    of the clock for the line that logs the request. *)
Theorem unknown_endpoint_not_found
        (self : Handler) (path : string) (w : World) (tr : trace) :
  ~ In path api_endpoints ->
  handle_api_request open_connection self path w tr
    = (Ok (Http 200 api_headers
             [ ("error", JStr "API endpoint not found");
               ("status", JStr "error") ]), Now :: tr)
  /\ "API endpoint not found" <> ""
  /\ forall (m : http_method) (req : Request),
       parsed_path req = path ->
       startswith "/api/" path = true ->
       handle self m req w tr
         = (Ok (ApiReply
                  (Http 200 api_headers
                     [ ("error", JStr "API endpoint not found");
                       ("status", JStr "error") ])), Now :: tr).
Proof.
  intros Hnot.
  assert (Hreq : handle_api_request open_connection self path w tr
                 = (Ok (Http 200 api_headers endpoint_not_found), Now :: tr)).
  { rewrite handle_api_request_open, (dispatch_unknown self path Hnot).
    reflexivity. }
  split; [exact Hreq|]. split; [discriminate|].
  intros m req Hpath Hapi.
  destruct m; simpl; unfold do_GET, do_POST; rewrite Hpath, Hapi;
    unfold bind; rewrite Hreq; reflexivity.
Qed.

Lemma unknown_endpoint_not_found_witness :
  handle_api_request open_connection CryptoClaudeHandler
    "/api/portfolio/export" host_up []
    = (Ok (Http 200 api_headers
             [ ("error", JStr "API endpoint not found");
               ("status", JStr "error") ]), [Now]).
Proof.
  refine (proj1 (unknown_endpoint_not_found CryptoClaudeHandler
                   "/api/portfolio/export" host_up [] _)).
  simpl. intros H.
  repeat (destruct H as [H|H]; [discriminate H|]). exact H.
Defined.




(** ** The handlers of [CryptoClaudeHandler] *)

Lemma get_system_status_returns (w : World) (tr : trace) :
  exists load : list float,
    get_system_load w (Now :: tr)
      = (Ok load, OpenReadline "/proc/loadavg" :: Now :: tr) /\
    get_system_status w tr =
      (Ok [ ("portfolio_value", JFloat 127543.21);
            ("portfolio_change", JFloat 3421.83);
            ("portfolio_change_percent", JFloat 2.76);
            ("active_positions", JInt 8);
            ("trading_mode", JStr "paper");
            ("ai_confidence", JFloat 84.2);
            ("claude_features_enabled", JBool true);
            ("positions",
             JList (map JStr
                      ["BTC"; "ETH"; "ADA"; "SOL"; "MATIC"; "LINK"; "DOT";
                       "AVAX"]));
            ("last_prediction_update", JStr (isoformat (clock w (length tr))));
            ("system_load", JList (map JFloat load));
            ("timestamp", JStr (isoformat (clock w (2 + length tr)))) ],
       Now :: OpenReadline "/proc/loadavg" :: Now :: tr).
Proof.
  destruct (get_system_load_returns w (Now :: tr)) as [load Hload].
  exists load. split; [exact Hload|].
  unfold get_system_status, bind at 1, datetime_now.
  unfold bind at 1. rewrite Hload. reflexivity.
Qed.

(** Each command reads the clock once and does nothing else. *)
Lemma command_trace (path : string) (w : World) (tr : trace) :
  In path command_endpoints ->
  exists d : dict,
    dispatch CryptoClaudeHandler path w tr = (Ok d, Now :: tr) /\
    has_envelope d.
Proof.
  intros Hin. simpl in Hin.
  repeat (destruct Hin as [<-|Hin]; [eexists; split;
            [reflexivity|split; reflexivity]|]).
  destruct Hin.
Qed.

Lemma get_recent_logs_returns (w : World) (tr : trace) :
  get_recent_logs w tr =
    (Ok [ ("logs",
           JList
             [ log_entry (clock w (length tr)) "INFO"
                 "CryptoClaude system running normally";
               log_entry (clock w (1 + length tr)) "SUCCESS"
                 "Claude AI features operational";
               log_entry (clock w (2 + length tr)) "INFO"
                 "API connections: 6/6 active" ]);
          ("timestamp", JStr (isoformat (clock w (3 + length tr)))) ],
     [Now; Now; Now; Now] ++ tr)%list.
Proof. reflexivity. Qed.

(** What the router's [try] block gives for each path, with the handlers
    of the class: it never raises, so the router's own [except] clause is
    reached only with other handlers. *)
Lemma dispatch_returns (path : string) (w : World) (tr : trace) :
  exists (d : dict) (tr' : trace),
    dispatch CryptoClaudeHandler path w tr = (Ok d, tr') /\
    has_key "status" d = negb (is_snapshot_or_logs path) /\
    has_key "timestamp" d = is_endpoint path.
Proof.
  unfold dispatch, is_snapshot_or_logs, is_endpoint, api_endpoints, existsb.
  repeat match goal with
         | |- context [if String.eqb path ?s then _ else _] =>
             destruct (String.eqb_spec path s) as [->|_]
         end; simpl.
  - destruct (check_system_health_returns w tr) as (d & tr' & H & Hs & Ht).
    exists d, tr'. auto.
  - destruct (get_system_status_returns w tr) as (load & _ & H).
    rewrite H. eexists; eexists. repeat split.
  - rewrite get_recent_logs_returns. eexists; eexists. repeat split.
  - eexists; eexists. repeat split.
  - eexists; eexists. repeat split.
  - eexists; eexists. repeat split.
  - eexists; eexists. repeat split.
  - eexists; eexists. repeat split.
  - eexists; eexists. repeat split.
Qed.
(** ** Envelope *)

(** The answer to [GET /api/status] has no [status] field. *)
Lemma status_reply_lacks_envelope :
  exists d : dict,
    api_body CryptoClaudeHandler "/api/status" host_up [] = Some d /\
    has_key "status" d = false /\
    ~ has_envelope d.
Proof.
  eexists. split; [reflexivity|]. split; [reflexivity|].
  intros [Hstatus _]. discriminate Hstatus.
Qed.

(** The answer for an unknown path has no [timestamp] field. *)
Example unknown_reply_lacks_timestamp :
  exists d : dict,
    api_body CryptoClaudeHandler "/api/portfolio/export" host_up [] = Some d /\
    has_key "status" d = true /\
    has_key "timestamp" d = false.
Proof. eexists. repeat split. Qed.

(** C1, as the code has it. Every API request is answered with a JSON
    object.  It has a [timestamp] field exactly when the path is one of
    the eight endpoints (the answer for an unknown path has none), and a
    [status] field exactly when the path is neither [/api/status] nor
    [/api/logs].  So the health endpoint and the five command endpoints
    carry both fields. *)
Theorem envelope_by_endpoint (path : string) (w : World) (tr : trace) :
  exists d : dict,
    api_body CryptoClaudeHandler path w tr = Some d /\
    has_key "timestamp" d = is_endpoint path /\
    has_key "status" d = negb (is_snapshot_or_logs path) /\
    (is_endpoint path && negb (is_snapshot_or_logs path) = true
       <-> has_envelope d).
Proof.
  destruct (dispatch_returns path w (Now :: tr)) as (d & tr' & Hd & Hs & Ht).
  exists d. unfold api_body. rewrite handle_api_request_open, Hd.
  split; [reflexivity|].
  split; [exact Ht|]. split; [exact Hs|].
  unfold has_envelope. rewrite Hs, Ht.
  rewrite andb_true_iff. tauto.
Qed.

(** ** Status snapshot and logs *)

Lemma status_snapshot_eq (w : World) (tr : trace) :
  status_snapshot w tr =
    match get_system_status w (Now :: tr) with
    | (Ok d, _) => Some d
    | (Raise e, _) =>
        Some [ ("error", JStr (exn_str e)); ("status", JStr "error") ]
    end.
Proof.
  unfold status_snapshot, do_GET. cbn [parsed_path].
  change (startswith "/api/" "/api/status") with true. cbv iota.
  unfold bind at 1. rewrite handle_api_request_open.
  change (dispatch CryptoClaudeHandler "/api/status") with get_system_status.
  destruct (get_system_status w (Now :: tr)) as [[d|e] tr']; reflexivity.
Qed.

(** C8. On a freshly started server, before any other request, [GET
    /api/status] is answered with a snapshot whose trading mode is
    "paper" and whose count of active positions is 8, on every host. *)
Theorem fresh_status_has_seed_defaults (w : World) :
  exists d : dict,
    status_snapshot w [] = Some d /\
    lookup "trading_mode" d = Some (JStr "paper") /\
    lookup "active_positions" d = Some (JInt 8).
Proof.
  destruct (get_system_status_returns w [Now]) as (load & _ & H).
  rewrite status_snapshot_eq, H. eexists. repeat split.
Qed.

(** C10. [/api/logs] is answered with exactly three entries, of levels
    INFO, SUCCESS, INFO in this order and with fixed messages, each with
    the time of its own reading of the clock; this holds for GET and
    POST, whatever the query string, the host and the moment.  The
    request reads the clock five times (its log line, the three entries,
    the answer's own time) and asks nothing else of the host. *)
Theorem logs_are_three_fixed_entries
        (m : http_method) (raw : string) (w : World) (tr : trace) :
  exists logs : list json,
    handle CryptoClaudeHandler m
      {| raw_path := raw; parsed_path := "/api/logs" |} w tr
    = (Ok (ApiReply
             (Http 200 api_headers
                [ ("logs", JList logs);
                  ("timestamp",
                   JStr (isoformat (clock w (4 + length tr)))) ])),
       [Now; Now; Now; Now; Now] ++ tr)%list /\
    logs =
      [ JDict [ ("timestamp", JStr (strftime_HMS (clock w (1 + length tr))));
                ("level", JStr "INFO");
                ("message", JStr "CryptoClaude system running normally") ];
        JDict [ ("timestamp", JStr (strftime_HMS (clock w (2 + length tr))));
                ("level", JStr "SUCCESS");
                ("message", JStr "Claude AI features operational") ];
        JDict [ ("timestamp", JStr (strftime_HMS (clock w (3 + length tr))));
                ("level", JStr "INFO");
                ("message", JStr "API connections: 6/6 active") ] ] /\
    length logs = 3%nat /\
    logs <> [].
Proof.
  eexists. split; [|split; [reflexivity|split; [reflexivity|discriminate]]].
  destruct m; reflexivity.
Qed.

(** ** Commands and the snapshot *)

Lemma claude_features_enabled_true (w : World) (tr : trace) :
  claude_features_enabled w tr = Some (JBool true).
Proof.
  unfold claude_features_enabled.
  destruct (get_system_status_returns w tr) as (load & _ & H).
  rewrite H. reflexivity.
Qed.

(** After one toggle the flag that the status operation reports is what
    it was before, [true]: the call did not flip it. *)
Lemma toggle_does_not_flip : ~ toggle_flips host_up [].
Proof.
  intros (b & Hbefore & Hafter & _).
  rewrite claude_features_enabled_true in Hbefore, Hafter.
  destruct b; discriminate.
Qed.

(** The flag that the status operation reports is [true] before a
    toggle, after one toggle and after two; every call returns
    [claude_enabled = true], reading the clock once. *)
Lemma toggle_twice_restores_flag (w : World) (tr : trace) :
  let tr1 := after toggle_claude_features w tr in
  let tr2 := after toggle_claude_features w tr1 in
  claude_features_enabled w tr2 = claude_features_enabled w tr /\
  claude_features_enabled w tr = Some (JBool true) /\
  claude_features_enabled w tr1 = Some (JBool true) /\
  toggle_result w tr = Some (JBool true) /\
  toggle_result w tr1 = Some (JBool true) /\
  tr2 = Now :: Now :: tr.
Proof.
  cbv zeta. rewrite !claude_features_enabled_true.
  repeat split.
Qed.

(** C2. The code at the failing input: the status is asked, the toggle
    is called once, the status is asked again.  The toggle answers
    "Claude features toggled" with [claude_enabled = true], and the flag
    in the status is [true] before and [true] after: the call that says
    it toggled flipped nothing, and the boolean it returned is not the
    negation of the flag. *)
Theorem toggle_leaves_flag_on :
  exists before toggled afterwards : HttpResponse,
    fst (serve CryptoClaudeHandler
           [ (GET, {| raw_path := "/api/status";
                      parsed_path := "/api/status" |});
             (POST, {| raw_path := "/api/claude/toggle";
                       parsed_path := "/api/claude/toggle" |});
             (GET, {| raw_path := "/api/status";
                      parsed_path := "/api/status" |}) ]
           host_up [])
    = Ok [ApiReply before; ApiReply toggled; ApiReply afterwards] /\
    lookup "claude_features_enabled" (body before) = Some (JBool true) /\
    lookup "status" (body toggled) = Some (JStr "success") /\
    lookup "message" (body toggled) = Some (JStr "Claude features toggled") /\
    lookup "claude_enabled" (body toggled) = Some (JBool true) /\
    lookup "claude_features_enabled" (body afterwards) = Some (JBool true) /\
    ~ toggle_flips host_up [].
Proof.
  eexists; eexists; eexists.
  split; [reflexivity|]. repeat (split; [reflexivity|]).
  exact toggle_does_not_flip.
Qed.

Lemma list_comprehension_float_pure (xs : list string) (w : World) :
  exists r : result (list float),
    forall tr : trace, list_comprehension py_float xs w tr = (r, tr).
Proof.
  induction xs as [|x xs [r IH]]; simpl.
  - exists (Ok []). reflexivity.
  - unfold bind, py_float.
    destruct (float_of_string w x) as [y|e].
    + destruct r as [ys|e].
      * exists (Ok (y :: ys)). intros tr. rewrite IH. reflexivity.
      * exists (Raise e). intros tr. rewrite IH. reflexivity.
    + exists (Raise e). reflexivity.
Qed.

(** The load sample depends on the moment of the reading only, through
    the line that /proc/loadavg holds then. *)
Lemma get_system_load_by_line (w : World) (t1 t2 : trace) :
  read_line w (length t1) "/proc/loadavg"
    = read_line w (length t2) "/proc/loadavg" ->
  fst (get_system_load w t1) = fst (get_system_load w t2).
Proof.
  intros Hline.
  unfold get_system_load, try_except, read_loadavg, bind, open_readline.
  rewrite Hline.
  destruct (read_line w (length t2) "/proc/loadavg") as [line|e];
    [|reflexivity].
  destruct (list_comprehension_float_pure (firstn 3 (py_split line)) w)
    as [[load|e] Hpure]; rewrite !Hpure; reflexivity.
Qed.

(** The status answer in terms of the clock and of the load sample. *)
Lemma status_snapshot_fields (w : World) (tr : trace) :
  exists load : list float,
    fst (get_system_load w (Now :: Now :: tr)) = Ok load /\
    status_snapshot w tr =
      Some [ ("portfolio_value", JFloat 127543.21);
             ("portfolio_change", JFloat 3421.83);
             ("portfolio_change_percent", JFloat 2.76);
             ("active_positions", JInt 8);
             ("trading_mode", JStr "paper");
             ("ai_confidence", JFloat 84.2);
             ("claude_features_enabled", JBool true);
             ("positions",
              JList (map JStr
                       ["BTC"; "ETH"; "ADA"; "SOL"; "MATIC"; "LINK"; "DOT";
                        "AVAX"]));
             ("last_prediction_update",
              JStr (isoformat (clock w (1 + length tr))));
             ("system_load", JList (map JFloat load));
             ("timestamp", JStr (isoformat (clock w (3 + length tr)))) ].
Proof.
  destruct (get_system_status_returns w (Now :: tr)) as (load & Hl & Hs).
  exists load. rewrite Hl. split; [reflexivity|].
  rewrite status_snapshot_eq, Hs. reflexivity.
Qed.

(** The status answer does not depend on what was asked of the host
    before, only on the moment. *)
Lemma status_snapshot_by_length (w : World) (t1 t2 : trace) :
  length t1 = length t2 -> status_snapshot w t1 = status_snapshot w t2.
Proof.
  intros Hlen.
  destruct (status_snapshot_fields w t1) as (l1 & Hl1 & H1).
  destruct (status_snapshot_fields w t2) as (l2 & Hl2 & H2).
  assert (Hload : fst (get_system_load w (Now :: Now :: t1))
                  = fst (get_system_load w (Now :: Now :: t2))).
  { apply get_system_load_by_line. simpl. now rewrite Hlen. }
  rewrite Hl1, Hl2 in Hload. injection Hload as <-.
  rewrite H1, H2, Hlen. reflexivity.
Qed.

Lemma repeat_shift {A : Type} (x : A) (n : nat) (l : list A) :
  (repeat x n ++ x :: l = x :: repeat x n ++ l)%list.
Proof. induction n as [|n IH]; simpl; [reflexivity|]. now rewrite IH. Qed.

(** A command request reads the clock twice, for the line that logs it
    and for its timestamp, and asks nothing else of the host. *)
Lemma handle_command
      (m : http_method) (req : Request) (w : World) (tr : trace) :
  is_command_request (m, req) ->
  exists r : reply,
    handle CryptoClaudeHandler m req w tr = (Ok r, Now :: Now :: tr).
Proof.
  unfold is_command_request. cbn [snd]. intros Hin.
  assert (Hapi : startswith "/api/" (parsed_path req) = true).
  { simpl in Hin.
    repeat (destruct Hin as [<-|Hin]; [reflexivity|]). destruct Hin. }
  destruct (command_trace _ w (Now :: tr) Hin) as (d & Hd & _).
  destruct m; cbn [handle]; unfold do_GET, do_POST; rewrite Hapi;
    unfold bind; rewrite handle_api_request_open, Hd;
    eexists; reflexivity.
Qed.

Lemma serve_commands (cmds : list (http_method * Request))
      (w : World) (tr : trace) :
  Forall is_command_request cmds ->
  exists rs : list reply,
    serve CryptoClaudeHandler cmds w tr
      = (Ok rs, repeat Now (2 * length cmds) ++ tr)%list.
Proof.
  intros Hall. revert tr.
  induction Hall as [|[m req] cmds Hcmd _ IH]; intros tr.
  - exists []. reflexivity.
  - destruct (handle_command m req w tr Hcmd) as [r Hr].
    destruct (IH (Now :: Now :: tr)) as [rs Hrs].
    exists (r :: rs). cbn [serve]. unfold bind at 1.
    rewrite Hr. unfold bind at 1. rewrite Hrs. unfold ret.
    f_equal. cbn [length].
    replace (2 * S (length cmds))%nat with (S (S (2 * length cmds))) by lia.
    cbn [repeat app]. now rewrite !repeat_shift.
Qed.

(** On a host whose load changes while the commands run, the status
    after one command differs from the status before it in
    [system_load], which is not a timestamp field. *)
Lemma status_load_changes_across_commands :
  exists d d' : dict,
    status_snapshot host_busy [] = Some d /\
    status_snapshot host_busy
      (after (serve CryptoClaudeHandler
                [ (POST, {| raw_path := "/api/trading/start";
                            parsed_path := "/api/trading/start" |}) ])
         host_busy [])
      = Some d' /\
    without_timestamps d' <> without_timestamps d.
Proof.
  eexists; eexists. split; [reflexivity|]. split; [reflexivity|].
  intros H.
  apply (f_equal
           (fun d => match lookup "system_load" d with
                     | Some (JList (JFloat x :: _)) => PrimFloat.eqb x 0.5
                     | _ => false
                     end)) in H.
  vm_compute in H. discriminate H.
Qed.

(** C9, as the code has it. After any number of requests to the command
    endpoints, the answer to [GET /api/status] is the one it was before
    them except for its [timestamp] and [last_prediction_update] fields
    and for [system_load], which is read from the host at every status
    request; it is the same also in [system_load] when /proc/loadavg
    reads the same at the two status requests.  No command writes
    anything the status operation reads: a command request only reads
    the clock, twice, and the status answer depends on the moment it is
    asked at, not on the requests served before. *)
Theorem commands_leave_status_unchanged
        (cmds : list (http_method * Request)) (w : World) (tr : trace) :
  Forall is_command_request cmds ->
  let tr' := after (serve CryptoClaudeHandler cmds) w tr in
  tr' = (repeat Now (2 * length cmds) ++ tr)%list /\
  exists d d' : dict,
    status_snapshot w tr = Some d /\
    status_snapshot w tr' = Some d' /\
    without_volatile d' = without_volatile d /\
    (read_line w (2 + length tr') "/proc/loadavg"
       = read_line w (2 + length tr) "/proc/loadavg" ->
     without_timestamps d' = without_timestamps d) /\
    (forall tr0 : trace,
       length tr0 = length tr' -> status_snapshot w tr0 = Some d').
Proof.
  intros Hall. cbv zeta.
  destruct (serve_commands cmds w tr Hall) as [rs Hrs].
  unfold after. rewrite Hrs. cbn [snd]. split; [reflexivity|].
  set (tr' := (repeat Now (2 * length cmds) ++ tr)%list).
  destruct (status_snapshot_fields w tr) as (l & Hl & Hd).
  destruct (status_snapshot_fields w tr') as (l' & Hl' & Hd').
  eexists; eexists. split; [exact Hd|]. split; [exact Hd'|].
  split; [reflexivity|]. split.
  - intros Hline.
    assert (Hload : fst (get_system_load w (Now :: Now :: tr'))
                    = fst (get_system_load w (Now :: Now :: tr))).
    { apply get_system_load_by_line. exact Hline. }
    rewrite Hl, Hl' in Hload. injection Hload as ->. reflexivity.
  - intros tr0 Hlen.
    rewrite (status_snapshot_by_length w tr0 tr' Hlen). exact Hd'.
Qed.

Lemma commands_leave_status_unchanged_witness :
  let cmds :=
    [ (POST, {| raw_path := "/api/trading/start";
                parsed_path := "/api/trading/start" |});
      (GET, {| raw_path := "/api/claude/toggle?x=1";
               parsed_path := "/api/claude/toggle" |});
      (POST, {| raw_path := "/api/predictions/refresh";
                parsed_path := "/api/predictions/refresh" |}) ] in
  let tr' := after (serve CryptoClaudeHandler cmds) host_busy [] in
  tr' = (repeat Now (2 * length cmds) ++ [])%list /\
  exists d d' : dict,
    status_snapshot host_busy [] = Some d /\
    status_snapshot host_busy tr' = Some d' /\
    without_volatile d' = without_volatile d /\
    (read_line host_busy (2 + length tr') "/proc/loadavg"
       = read_line host_busy (2 + length (@nil effect)) "/proc/loadavg" ->
     without_timestamps d' = without_timestamps d) /\
    (forall tr0 : trace,
       length tr0 = length tr' -> status_snapshot host_busy tr0 = Some d').
Proof.
  refine (commands_leave_status_unchanged _ host_busy [] _).
  repeat constructor; unfold is_command_request; simpl; tauto.
Defined.
(** ** More on the router *)

(** X1. GET and POST answer a request in the same way, with the same
    calls to the host, exactly when its path starts with [/api/]: on
    every other path GET hands over to the static file server and POST
    sends a 404. *)
Theorem get_post_agree_iff_api
        (self : Handler) (req : Request) (w : World) (tr : trace) :
  do_GET self req w tr = do_POST self req w tr
  <-> startswith "/api/" (parsed_path req) = true.
Proof.
  unfold do_GET, do_POST.
  destruct (startswith "/api/" (parsed_path req)).
  - split; reflexivity.
  - split; [|discriminate].
    unfold super_do_GET, send_error, static_get, log_message, bind, ret,
      datetime_now.
    destruct (parsed_path req =? "/");
      match goal with
      | |- context [static_file ?w ?n ?p] => destruct (static_file w n p)
      end; discriminate.
Qed.

(** X2. Every request under [/api/], by either method, is answered with
    status line 200 and the four fixed headers, whatever the path is and
    whatever the handlers do, raising included: a failure shows in the
    body only. *)
Theorem api_requests_always_answered_200
        (self : Handler) (m : http_method) (req : Request)
        (w : World) (tr : trace) :
  startswith "/api/" (parsed_path req) = true ->
  exists (d : dict) (tr' : trace),
    handle self m req w tr = (Ok (ApiReply (Http 200 api_headers d)), tr').
Proof.
  intros Hapi.
  destruct (handle_api_request_returns self (parsed_path req) w tr)
    as (d & tr' & H).
  exists d, tr'.
  destruct m; cbn [handle]; unfold do_GET, do_POST; rewrite Hapi;
    unfold bind; rewrite H; reflexivity.
Qed.

Lemma api_requests_always_answered_200_witness :
  exists (d : dict) (tr' : trace),
    handle FailingHealthHandler POST
      {| raw_path := "/api/health?verbose=1"; parsed_path := "/api/health" |}
      host_down []
    = (Ok (ApiReply (Http 200 api_headers d)), tr').
Proof.
  exact (api_requests_always_answered_200 FailingHealthHandler POST
           {| raw_path := "/api/health?verbose=1";
              parsed_path := "/api/health" |} host_down [] eq_refl).
Defined.

(** X4. Endpoints are matched whole: a path made of an endpoint and at
    least one more character (a trailing slash, a sub-path) is answered
    as not found, without a handler being called. *)
Theorem endpoint_with_suffix_not_found
        (self : Handler) (endpoint suffix : string) :
  In endpoint api_endpoints ->
  suffix <> "" ->
  dispatch self (endpoint ++ suffix) = ret endpoint_not_found.
Proof.
  intros Hin Hsuffix. apply dispatch_unknown. intros Hin'.
  destruct suffix as [|c suffix]; [now apply Hsuffix|].
  simpl in Hin.
  repeat (destruct Hin as [<-|Hin];
          [simpl in Hin';
           repeat (destruct Hin' as [Heq|Hin']; [discriminate Heq|]);
           exact Hin'|]).
  exact Hin.
Qed.

Lemma endpoint_with_suffix_not_found_witness :
  dispatch CryptoClaudeHandler ("/api/health" ++ "/") = ret endpoint_not_found.
Proof.
  refine (endpoint_with_suffix_not_found CryptoClaudeHandler
            "/api/health" "/" _ _).
  - simpl. tauto.
  - discriminate.
Defined.

(** ** More on the probe *)

(** X5. A health report comes in two shapes.  Either it has the five
    fields [status], [cryptoclaude_running], [aws_connected],
    [timestamp], [uptime] and its status is "healthy" or "stopped"; or
    it has the three fields [status], [error], [timestamp] and its
    status is "error".  So an [error] field is there exactly when the
    status is "error", and then the probe results are not. *)
Theorem health_report_shapes (w : World) (tr : trace) :
  exists (report : dict) (tr' : trace),
    check_system_health w tr = (Ok report, tr') /\
    ((keys report = [ "status"; "cryptoclaude_running"; "aws_connected";
                      "timestamp"; "uptime" ] /\
      (lookup "status" report = Some (JStr "healthy") \/
       lookup "status" report = Some (JStr "stopped")) /\
      length tr' = (4 + length tr)%nat)
     \/
     (keys report = [ "status"; "error"; "timestamp" ] /\
      lookup "status" report = Some (JStr "error") /\
      length tr' = (2 + length tr)%nat)).
Proof.
  unfold check_system_health, try_except.
  destruct (run_process w (length tr) pgrep_argv None) as [r|e] eqn:Hrun.
  - destruct (collect_health_lookup_done w tr r Hrun) as (aws & up & Hc).
    rewrite Hc. eexists; eexists. split; [reflexivity|]. left.
    split; [reflexivity|]. split; [|reflexivity].
    simpl. destruct (is_running r); auto.
  - rewrite (collect_health_lookup_failed w tr e Hrun).
    eexists; eexists. split; [reflexivity|]. right.
    repeat split.
Qed.

(** X6. In a report of a completed health check, [aws_connected] is
    true exactly when the ping, run right after the process lookup,
    returned with exit code 0; the status does not depend on it, so a
    report may be "healthy" with [aws_connected] false. *)
Theorem health_reports_connectivity
        (w : World) (tr : trace) (r : CompletedProcess) :
  run_process w (length tr) pgrep_argv None = Ok r ->
  exists (report : dict) (tr' : trace),
    check_system_health w tr = (Ok report, tr') /\
    (lookup "aws_connected" report = Some (JBool true)
     <-> exists p : CompletedProcess,
           run_process w (1 + length tr) ping_argv (Some ping_timeout) = Ok p
           /\ returncode p = 0%Z) /\
    lookup "status" report
      = Some (JStr (if is_running r then "healthy" else "stopped")).
Proof.
  intros Hrun. unfold check_system_health, try_except.
  unfold collect_health, bind at 1, subprocess_run. rewrite Hrun.
  unfold bind at 1, check_aws_connection, try_except, ping_probe,
    bind at 1, subprocess_run.
  cbn [length].
  destruct (run_process w (S (length tr)) ping_argv (Some ping_timeout))
    as [p|e] eqn:Hping; unfold ret at 1.
  - destruct (get_system_uptime_returns w
                (Now :: SubprocessRun ping_argv (Some ping_timeout)
                     :: SubprocessRun pgrep_argv None :: tr))
      as [uptime Hup].
    unfold bind at 1, datetime_now. unfold bind. rewrite Hup.
    eexists; eexists. split; [reflexivity|]. split; [|reflexivity].
    simpl. split.
    + intros H. exists p. split; [exact Hping|].
      apply Z.eqb_eq. congruence.
    + intros (p' & Hp' & Hcode).
      change (1 + length tr)%nat with (S (length tr)) in Hp'.
      rewrite Hping in Hp'. injection Hp' as <-.
      apply Z.eqb_eq in Hcode. now rewrite Hcode.
  - destruct (get_system_uptime_returns w
                (Now :: SubprocessRun ping_argv (Some ping_timeout)
                     :: SubprocessRun pgrep_argv None :: tr))
      as [uptime Hup].
    unfold bind at 1, datetime_now. unfold bind, ret at 1. rewrite Hup.
    eexists; eexists. split; [reflexivity|]. split; [|reflexivity].
    simpl. split; [discriminate|].
    intros (p' & Hp' & _).
    change (1 + length tr)%nat with (S (length tr)) in Hp'.
    rewrite Hping in Hp'. discriminate.
Qed.

Lemma health_reports_connectivity_witness :
  exists (report : dict) (tr' : trace),
    check_system_health host_offline [] = (Ok report, tr') /\
    (lookup "aws_connected" report = Some (JBool true)
     <-> exists p : CompletedProcess,
           run_process host_offline 1 ping_argv (Some ping_timeout) = Ok p
           /\ returncode p = 0%Z) /\
    lookup "status" report = Some (JStr "healthy").
Proof.
  exact (health_reports_connectivity host_offline []
           (Completed 0 ("4242" ++ newline) "") eq_refl).
Defined.

Lemma list_comprehension_length {A B : Type} (f : A -> M B) (xs : list A) :
  forall (w : World) (tr tr' : trace) (ys : list B),
    list_comprehension f xs w tr = (Ok ys, tr') -> length ys = length xs.
Proof.
  induction xs as [|x xs IH]; intros w tr tr' ys H; simpl in H.
  - unfold ret in H. injection H as <- _. reflexivity.
  - unfold bind at 1 in H.
    destruct (f x w tr) as [[y|e] tr1]; [|discriminate].
    unfold bind at 1 in H.
    destruct (list_comprehension f xs w tr1) as [[ys'|e] tr2] eqn:Hrest;
      [|discriminate].
    unfold ret in H. injection H as <- _.
    simpl. f_equal. eapply IH. exact Hrest.
Qed.

(** X7. The load sample never has more than three values, whatever
    /proc/loadavg holds and whether or not it can be read. *)
Theorem system_load_at_most_three (w : World) (tr : trace) :
  exists load : list float,
    fst (get_system_load w tr) = Ok load /\ (length load <= 3)%nat.
Proof.
  unfold get_system_load, try_except.
  destruct (read_loadavg w tr) as [[load|e] tr'] eqn:Hread;
    unfold ret; cbn [fst].
  - exists load. split; [reflexivity|].
    unfold read_loadavg, bind, open_readline in Hread.
    destruct (read_line w (length tr) "/proc/loadavg") as [line|e];
      [|discriminate].
    apply list_comprehension_length in Hread. rewrite Hread.
    apply firstn_le_length.
  - exists [0.0; 0.0; 0.0]%float. split; [reflexivity|]. simpl. lia.
Qed.

Lemma parse_all (w : World) (fields : list string) (xs : list float) :
  Forall2 (fun s x => float_of_string w s = Ok x) fields xs ->
  forall tr : trace, list_comprehension py_float fields w tr = (Ok xs, tr).
Proof.
  induction 1 as [|s x fields xs Hs _ IH]; intros tr; simpl.
  - reflexivity.
  - unfold bind at 1, py_float at 1. rewrite Hs.
    unfold bind. rewrite IH. reflexivity.
Qed.

Lemma parse_some_refused (w : World) (fields : list string) :
  Exists (fun s => exists e, float_of_string w s = Raise e) fields ->
  forall tr : trace,
    exists e, list_comprehension py_float fields w tr = (Raise e, tr).
Proof.
  induction 1 as [s fields [e He]|s fields _ IH]; intros tr; simpl.
  - exists e. unfold bind, py_float. rewrite He. reflexivity.
  - unfold bind at 1, py_float at 1.
    destruct (float_of_string w s) as [x|e]; [|eauto].
    destruct (IH tr) as [e He]. exists e. unfold bind. rewrite He.
    reflexivity.
Qed.

(** X8. When the first line of /proc/loadavg can be read, only its
    first three fields are looked at.  If [float()] accepts them all, the
    load sample is their values, in order; if it refuses one of them,
    the values of the others are dropped too and the sample is
    [[0.0, 0.0, 0.0]]. *)
Theorem system_load_all_or_default
        (w : World) (tr : trace) (line : string) :
  read_line w (length tr) "/proc/loadavg" = Ok line ->
  (forall xs : list float,
     Forall2 (fun s x => float_of_string w s = Ok x)
       (firstn 3 (py_split line)) xs ->
     fst (get_system_load w tr) = Ok xs) /\
  (Exists (fun s => exists e, float_of_string w s = Raise e)
     (firstn 3 (py_split line)) ->
   fst (get_system_load w tr) = Ok [0.0; 0.0; 0.0]%float).
Proof.
  intros Hline.
  unfold get_system_load, try_except, read_loadavg, bind at 1, open_readline.
  unfold bind at 1. rewrite Hline. split.
  - intros xs Hall. rewrite (parse_all w _ xs Hall). reflexivity.
  - intros Hsome.
    destruct (parse_some_refused w _ Hsome (OpenReadline "/proc/loadavg" :: tr))
      as [e He].
    rewrite He. reflexivity.
Qed.

Lemma system_load_all_or_default_witness :
  (forall xs : list float,
     Forall2 (fun s x => float_of_string host_up s = Ok x)
       (firstn 3 (py_split ("0.5 0.25 0.125 1/189 4242" ++ newline))) xs ->
     fst (get_system_load host_up []) = Ok xs) /\
  (Exists (fun s => exists e, float_of_string host_up s = Raise e)
     (firstn 3 (py_split ("0.5 0.25 0.125 1/189 4242" ++ newline))) ->
   fst (get_system_load host_up []) = Ok [0.0; 0.0; 0.0]%float).
Proof.
  exact (system_load_all_or_default host_up []
           ("0.5 0.25 0.125 1/189 4242" ++ newline) eq_refl).
Defined.

(** ** White space and the process lookup *)

(** X9. The console counts as running exactly when [pgrep] printed at
    least one character that is not white space: an output of blanks and
    line ends only is the same as no output, and the exit code of
    [pgrep] is not looked at. *)
Theorem is_running_iff_output_not_blank (r : CompletedProcess) :
  is_running r = negb (forallb is_space (list_ascii_of_string (stdout r))).
Proof.
  unfold is_running.
  destruct (forallb is_space (list_ascii_of_string (stdout r))) eqn:Hs.
  - apply py_strip_empty_iff in Hs. rewrite Hs. reflexivity.
  - destruct (py_strip (stdout r)) eqn:Hstrip; [|reflexivity].
    apply py_strip_empty_iff in Hstrip. congruence.
Qed.

(** ** More on the commands and the snapshot *)

(** X10. A command endpoint always answers "success": for each of the
    five, by either method and on every host, the body has status
    "success", a message and no [error] field.  The request reads the
    clock twice, first for the line that logs it and then for its
    [timestamp], which is therefore the second reading. *)
Theorem commands_always_succeed
        (m : http_method) (req : Request) (w : World) (tr : trace) :
  In (parsed_path req) command_endpoints ->
  exists (d : dict) (message : string),
    handle CryptoClaudeHandler m req w tr
      = (Ok (ApiReply (Http 200 api_headers d)), Now :: Now :: tr) /\
    lookup "status" d = Some (JStr "success") /\
    lookup "message" d = Some (JStr message) /\
    lookup "timestamp" d
      = Some (JStr (isoformat (clock w (1 + length tr)))) /\
    has_key "error" d = false.
Proof.
  intros Hin.
  assert (Hapi : startswith "/api/" (parsed_path req) = true).
  { simpl in Hin.
    repeat (destruct Hin as [<-|Hin]; [reflexivity|]). destruct Hin. }
  assert (Hd : exists d message,
             dispatch CryptoClaudeHandler (parsed_path req) w (Now :: tr)
               = (Ok d, Now :: Now :: tr) /\
             lookup "status" d = Some (JStr "success") /\
             lookup "message" d = Some (JStr message) /\
             lookup "timestamp" d
               = Some (JStr (isoformat (clock w (1 + length tr)))) /\
             has_key "error" d = false).
  { simpl in Hin.
    repeat (destruct Hin as [<-|Hin];
            [eexists; eexists; repeat split|]).
    destruct Hin. }
  destruct Hd as (d & message & Hd & Hrest).
  exists d, message. split; [|exact Hrest].
  destruct m; cbn [handle]; unfold do_GET, do_POST; rewrite Hapi;
    unfold bind; rewrite handle_api_request_open, Hd; reflexivity.
Qed.

Lemma commands_always_succeed_witness :
  exists (d : dict) (message : string),
    handle CryptoClaudeHandler POST
      {| raw_path := "/api/trading/pause"; parsed_path := "/api/trading/pause" |}
      host_down []
      = (Ok (ApiReply (Http 200 api_headers d)), [Now; Now]) /\
    lookup "status" d = Some (JStr "success") /\
    lookup "message" d = Some (JStr message) /\
    lookup "timestamp" d = Some (JStr (isoformat (clock host_down 1))) /\
    has_key "error" d = false.
Proof.
  refine (commands_always_succeed POST
            {| raw_path := "/api/trading/pause";
               parsed_path := "/api/trading/pause" |} host_down [] _).
  simpl. tauto.
Defined.

(** The message a path is answered with, if any. *)
Lemma command_message (path : string) (w : World) (tr : trace) :
  In path command_endpoints ->
  api_body CryptoClaudeHandler path w tr
  = Some
      ([ ("status", JStr "success");
         ("message",
          JStr (if path =? "/api/trading/start" then "Trading system started"
                else if path =? "/api/trading/stop" then "Trading system stopped"
                else if path =? "/api/trading/pause" then "Trading system paused"
                else if path =? "/api/claude/toggle" then "Claude features toggled"
                else "Predictions refreshed")) ]
       ++ (if path =? "/api/claude/toggle"
           then [ ("claude_enabled", JBool true) ]
           else if path =? "/api/predictions/refresh"
           then [ ("new_confidence", JFloat 87.1);
                  ("symbols_updated", JInt 12) ]
           else [])
       ++ [ ("timestamp", JStr (isoformat (clock w (1 + length tr)))) ])%list.
Proof.
  intros Hin. simpl in Hin.
  repeat (destruct Hin as [<-|Hin]; [reflexivity|]). destruct Hin.
Qed.

(** X11. The message of a command's answer tells which command ran: two
    command endpoints whose answers carry the same message are the same
    endpoint, whenever and on whatever hosts they were called. *)
Theorem command_messages_identify_endpoint
        (p q : string) (w w' : World) (tr tr' : trace) (dp dq : dict) :
  In p command_endpoints ->
  In q command_endpoints ->
  api_body CryptoClaudeHandler p w tr = Some dp ->
  api_body CryptoClaudeHandler q w' tr' = Some dq ->
  lookup "message" dp = lookup "message" dq ->
  p = q.
Proof.
  intros Hp Hq Hdp Hdq.
  rewrite (command_message p w tr Hp) in Hdp.
  rewrite (command_message q w' tr' Hq) in Hdq.
  injection Hdp as <-. injection Hdq as <-.
  simpl in Hp, Hq.
  repeat (destruct Hp as [<-|Hp]; [|]);
    try (destruct Hp);
    repeat (destruct Hq as [<-|Hq]; [|]);
    try (destruct Hq);
    simpl; intros H; try reflexivity; discriminate H.
Qed.

Lemma command_messages_identify_endpoint_witness :
  "/api/trading/stop" = "/api/trading/stop".
Proof.
  refine (command_messages_identify_endpoint
            "/api/trading/stop" "/api/trading/stop" host_up host_down [] [Now]
            _ _ _ _ eq_refl eq_refl eq_refl).
  - simpl. tauto.
  - simpl. tauto.
Defined.

(** X12. Every status snapshot has the same eleven fields in the same
    order, whether or not the load could be read; its [positions] are
    distinct symbols and [active_positions] is their number. *)
Theorem status_snapshot_is_consistent (w : World) (tr : trace) :
  exists (d : dict) (symbols : list string),
    status_snapshot w tr = Some d /\
    keys d = [ "portfolio_value"; "portfolio_change";
               "portfolio_change_percent"; "active_positions";
               "trading_mode"; "ai_confidence"; "claude_features_enabled";
               "positions"; "last_prediction_update"; "system_load";
               "timestamp" ] /\
    lookup "positions" d = Some (JList (map JStr symbols)) /\
    NoDup symbols /\
    lookup "active_positions" d = Some (JInt (Z.of_nat (length symbols))).
Proof.
  destruct (get_system_status_returns w (Now :: tr)) as (load & _ & H).
  rewrite status_snapshot_eq, H.
  eexists; eexists. split; [reflexivity|]. split; [reflexivity|].
  split; [reflexivity|]. split; [|reflexivity].
  repeat (constructor; [simpl; intros Hin;
                        repeat (destruct Hin as [Hin|Hin];
                                [discriminate Hin|]); exact Hin|]).
  constructor.
Qed.

(** ** What the handlers ask of the host *)







(** ** Starting the server *)

Example start_when_port_taken_on_linux :
  main port_taken_linux default_args
  = ([ PrintBanner 8080; Bind 8080;
       PrintErrorStarting (Exn "OSError" "[Errno 98] Address already in use") ],
     Returned).
Proof. reflexivity. Qed.

Example start_when_port_taken_on_macos :
  main port_taken_macos default_args
  = ([PrintBanner 8080; Bind 8080; PrintPortInUse 8080], Returned).
Proof. reflexivity. Qed.

Example start_until_interrupted :
  main interrupted_by_user {| arg_port := 9000; arg_no_open := true |}
  = ([ PrintBanner 9000; Bind 9000; PrintStarted 9000; ServeForever;
       PrintShutdownRequested; Shutdown; ServerClose ],
     Returned).
Proof. reflexivity. Qed.

Lemma report_startup_failure_events (port : Z) (r : raised) :
  existsb is_browser_timer (report_startup_failure port r) = false /\
  existsb is_serve_forever (report_startup_failure port r) = false /\
  existsb is_server_close (report_startup_failure port r) = false /\
  existsb is_port_in_use (report_startup_failure port r)
    = match r with
      | OSError errno _ => errno_is 48 errno
      | OtherException _ => false
      end.
Proof.
  destruct r as [errno e|e]; simpl; [|repeat split].
  destruct (errno_is 48 errno); repeat split.
Qed.

(** X14. The browser timer is started exactly when [--no-open] was
    not given, the port could be bound and the start of the timer did
    not raise: never with [--no-open], never when the server failed to
    start, and not when the timer's thread could not be started. *)
Theorem browser_opened_iff_asked_and_bound (h : ServerHost) (args : Args) :
  existsb is_browser_timer (fst (main h args))
  = negb (arg_no_open args)
    && match bind_outcome h (arg_port args) with
       | None => true
       | Some _ => false
       end
    && match timer_outcome h with
       | None => true
       | Some _ => false
       end.
Proof.
  unfold main, start_dashboard_server, keep_serving.
  destruct args as [port no_open]. cbn [arg_port arg_no_open].
  destruct (bind_outcome h port) as [r|].
  - cbn [fst]. rewrite existsb_app.
    destruct (report_startup_failure_events port r) as (-> & _).
    destruct no_open; reflexivity.
  - destruct no_open; cbn [negb andb].
    + destruct (serve_forever_outcome h) as [|r|]; cbn [fst];
        try reflexivity.
      rewrite !existsb_app.
      destruct (report_startup_failure_events port r) as (-> & _).
      reflexivity.
    + destruct (timer_outcome h) as [r|].
      * cbn [fst]. rewrite existsb_app.
        destruct (report_startup_failure_events port r) as (-> & _).
        reflexivity.
      * destruct (serve_forever_outcome h); reflexivity.
Qed.

Example start_without_threads :
  main no_more_threads default_args
  = ([ PrintBanner 8080; Bind 8080; PrintStarted 8080; ServerClose;
       PrintUnexpected (Exn "RuntimeError" "can't start new thread") ],
     Returned).
Proof. reflexivity. Qed.

(** X15. When the port cannot be bound, the function returns without
    serving and without opening a browser, and nothing is left to close.
    The hint that the port is in use is printed exactly when the
    exception is an [OSError] whose [errno] is 48; with any other error
    number (98, which Linux gives for a port in use, included) the
    general error line is printed instead. *)
Theorem bind_failure_is_reported
        (h : ServerHost) (port : Z) (auto_open : bool) (r : raised) :
  bind_outcome h port = Some r ->
  let run := start_dashboard_server h port auto_open in
  snd run = Returned /\
  existsb is_serve_forever (fst run) = false /\
  existsb is_browser_timer (fst run) = false /\
  existsb is_server_close (fst run) = false /\
  (existsb is_port_in_use (fst run) = true
   <-> exists e, r = OSError (Some 48%Z) e) /\
  (forall n e, r = OSError (Some n) e -> n <> 48%Z ->
               fst run = [PrintBanner port; Bind port; PrintErrorStarting e]).
Proof.
  intros Hbind. cbv zeta. unfold start_dashboard_server. rewrite Hbind.
  cbn [fst snd]. rewrite !existsb_app.
  destruct (report_startup_failure_events port r) as (-> & -> & -> & ->).
  repeat split; try reflexivity.
  - destruct r as [[k|] e|e]; simpl; try discriminate.
    intros Hk. apply Z.eqb_eq in Hk. subst k. eauto.
  - intros [e ->]. reflexivity.
  - intros n e -> Hn. simpl. apply Z.eqb_neq in Hn. rewrite Hn. reflexivity.
Qed.

Lemma bind_failure_is_reported_witness :
  let run := start_dashboard_server port_taken_linux 8080 true in
  snd run = Returned /\
  existsb is_serve_forever (fst run) = false /\
  existsb is_browser_timer (fst run) = false /\
  existsb is_server_close (fst run) = false /\
  (existsb is_port_in_use (fst run) = true
   <-> exists e,
         OSError (Some 98%Z) (Exn "OSError" "[Errno 98] Address already in use")
         = OSError (Some 48%Z) e) /\
  (forall n e,
     OSError (Some 98%Z) (Exn "OSError" "[Errno 98] Address already in use")
     = OSError (Some n) e ->
     n <> 48%Z ->
     fst run = [PrintBanner 8080; Bind 8080; PrintErrorStarting e]).
Proof.
  exact (bind_failure_is_reported port_taken_linux 8080 true _ eq_refl).
Defined.

(** X16. Once the port is bound, the function returns exactly when the
    serving loop ends (or the browser timer fails to start), and then it
    has closed the server, once; it stays in the loop exactly when the
    loop does not end, and then the server is open. *)
Theorem bound_server_is_closed_on_return
        (h : ServerHost) (port : Z) (auto_open : bool) :
  bind_outcome h port = None ->
  let run := start_dashboard_server h port auto_open in
  length (filter is_server_close (fst run))
    = match snd run with Returned => 1%nat | StillServing => 0%nat end /\
  (snd run = StillServing
   <-> serve_forever_outcome h = RunsForever /\
       (auto_open = true -> timer_outcome h = None)).
Proof.
  intros Hbind. cbv zeta.
  assert (Hnone : forall r,
             filter is_server_close (report_startup_failure port r) = []).
  { intros [errno e|e]; simpl; [destruct (errno_is 48 errno)|]; reflexivity. }
  unfold start_dashboard_server, keep_serving. rewrite Hbind.
  destruct auto_open.
  - destruct (timer_outcome h) as [r|].
    + cbn [fst snd]. rewrite filter_app, Hnone. split; [reflexivity|].
      split; [discriminate|]. intros [_ H]. discriminate (H eq_refl).
    + destruct (serve_forever_outcome h) as [|r|]; cbn [fst snd].
      * split; [reflexivity|]. split; [discriminate|].
        intros [H _]; discriminate H.
      * rewrite !filter_app, Hnone. split; [reflexivity|].
        split; [discriminate|]. intros [H _]; discriminate H.
      * split; [reflexivity|]. split; auto.
  - destruct (serve_forever_outcome h) as [|r|]; cbn [fst snd].
    + split; [reflexivity|]. split; [discriminate|].
      intros [H _]; discriminate H.
    + rewrite !filter_app, Hnone. split; [reflexivity|].
      split; [discriminate|]. intros [H _]; discriminate H.
    + split; [reflexivity|]. split; [|reflexivity].
      intros _. split; [reflexivity|discriminate].
Qed.

Lemma bound_server_is_closed_on_return_witness :
  let run := start_dashboard_server interrupted_by_user 8080 true in
  length (filter is_server_close (fst run))
    = match snd run with Returned => 1%nat | StillServing => 0%nat end /\
  (snd run = StillServing
   <-> serve_forever_outcome interrupted_by_user = RunsForever /\
       (true = true -> timer_outcome interrupted_by_user = None)).
Proof.
  exact (bound_server_is_closed_on_return interrupted_by_user 8080 true
           eq_refl).
Defined.

(** ** Rounding the uptime *)

(** [int()] rounds a finite float toward zero. *)
Lemma py_int_truncates (x : float) (s : bool) (m : positive) (e : Z) :
  Prim2SF x = S754_finite s m e ->
  exists n : Z,
    py_int x = Ok n /\
    (if s then n <= 0 else 0 <= n)%Z /\
    (if (0 <=? e)%Z then Z.abs n = Z.pos m * 2 ^ e
     else Z.abs n * 2 ^ (- e) <= Z.pos m < (Z.abs n + 1) * 2 ^ (- e))%Z.
Proof.
  intros Hx. unfold py_int. rewrite Hx.
  destruct (0 <=? e)%Z eqn:He.
  - apply Z.leb_le in He.
    assert (Hpos : (0 <= Z.pos m * 2 ^ e)%Z).
    { apply Z.mul_nonneg_nonneg; [lia|]. apply Z.pow_nonneg. lia. }
    eexists. split; [reflexivity|].
    destruct s; split; try lia.
  - apply Z.leb_gt in He.
    assert (Hpow : (0 < 2 ^ (- e))%Z) by (apply Z.pow_pos_nonneg; lia).
    pose proof (Z.div_pos (Z.pos m) (2 ^ (- e)) ltac:(lia) Hpow) as Hq.
    pose proof (Z.mul_div_le (Z.pos m) (2 ^ (- e)) Hpow) as Hlo.
    pose proof (Z.mul_succ_div_gt (Z.pos m) (2 ^ (- e)) Hpow) as Hhi.
    eexists. split; [reflexivity|].
    destruct s; (split; [lia|]).
    + rewrite Z.abs_opp, Z.abs_eq by exact Hq. lia.
    + rewrite Z.abs_eq by exact Hq. lia.
Qed.

(** X17. The uptime is the first field of /proc/uptime in whole
    seconds, rounded toward zero and never up; the fields after it are
    not looked at.  When the first line can be read and [float()] turns
    its first field into the finite float of sign [s] and magnitude
    [m * 2^e], the uptime has that sign and its absolute value [k] is
    [m * 2^e] when [e] is not negative, and otherwise the one integer
    with [k * 2^-e <= m < (k + 1) * 2^-e]. *)
Theorem uptime_is_first_field_truncated
        (w : World) (tr : trace) (line field : string) (rest : list string)
        (x : float) (s : bool) (m : positive) (e : Z) :
  read_line w (length tr) "/proc/uptime" = Ok line ->
  py_split line = field :: rest ->
  float_of_string w field = Ok x ->
  Prim2SF x = S754_finite s m e ->
  exists n : Z,
    fst (get_system_uptime w tr) = Ok n /\
    (if s then n <= 0 else 0 <= n)%Z /\
    (if (0 <=? e)%Z then Z.abs n = Z.pos m * 2 ^ e
     else Z.abs n * 2 ^ (- e) <= Z.pos m < (Z.abs n + 1) * 2 ^ (- e))%Z.
Proof.
  intros Hline Hsplit Hfloat Hx.
  destruct (py_int_truncates x s m e Hx) as (n & Hn & Hrest).
  exists n. split; [|exact Hrest].
  unfold get_system_uptime, try_except, read_uptime.
  unfold bind at 1, open_readline. rewrite Hline.
  unfold bind at 1, lift at 1. rewrite Hsplit. cbn [index0].
  unfold bind, py_float, lift. rewrite Hfloat, Hn. reflexivity.
Qed.

Lemma uptime_is_first_field_truncated_witness :
  exists n : Z,
    fst (get_system_uptime host_up []) = Ok n /\
    (0 <= n)%Z /\
    (Z.abs n * 2 ^ (- (-36)) <= 5937379969859584
     < (Z.abs n + 1) * 2 ^ (- (-36)))%Z.
Proof.
  exact (uptime_is_first_field_truncated host_up []
           ("86400.25 170000.50" ++ newline) "86400.25" ["170000.50"]
           86400.25%float false 5937379969859584%positive (-36)%Z
           eq_refl eq_refl eq_refl eq_refl).
Defined.

